(** * A GraphQL gateway in front of the OpenAI API: embedding and properties

    The development follows the layout of the repository:
    - [Types]      is [src/types/index.ts];
    - [Provider]   holds the wire shapes of the [openai] client that the
                   service reads and writes;
    - [Service]    is [src/services/openai.ts];
    - [Resolvers]  is [src/schema/resolvers.ts];
    - [Worker]     is [src/index.ts].

    Asynchronous functions are embedded in a small monad [M]: a computation
    either returns a value or throws (a rejected promise), and it records
    the calls it makes to the outside world (provider calls, [console.error],
    construction of the client and of the GraphQL server) in a trace. *)

From Stdlib Require Import PrimFloat Strings.String Strings.Ascii.
From Stdlib Require Import ZArith List Bool Lia.
Import ListNotations.

(** Decimal literals such as [0.7] stand for the nearest binary64 value, as
    they do in the source. *)
Set Warnings "-inexact-float".

Local Open Scope string_scope.
Local Open Scope list_scope.
Local Open Scope Z_scope.

(** ** JavaScript notions used by the code *)

Module Js.

(** A value caught by a [catch] clause: an instance of [Error], which has a
    [message], or any other thrown value. *)
Inductive thrown : Type :=
| Error (message : string)
| NonError (shown : string).

(** [error instanceof Error ? error.message : 'Unknown error'] *)
Definition message_or_unknown (e : thrown) : string :=
  match e with
  | Error message => message
  | NonError _ => "Unknown error"
  end.

(** Truthiness.  An optional field is [None] when it is [undefined] or
    [null]; a string is falsy when empty, a number when it is [0], [-0]
    or [NaN]. *)
Definition truthy_string (s : string) : bool :=
  match s with EmptyString => false | String _ _ => true end.

Definition truthy_number (x : float) : bool :=
  negb (PrimFloat.eqb x 0%float) && PrimFloat.eqb x x.

Definition truthy_int (n : Z) : bool := negb (n =? 0).

(** [x || d] at each of the three types. *)
Definition or_string (x : option string) (d : string) : string :=
  match x with
  | Some s => if truthy_string s then s else d
  | None => d
  end.

Definition or_number (x : option float) (d : float) : float :=
  match x with
  | Some v => if truthy_number v then v else d
  | None => d
  end.

Definition or_int (x : option Z) (d : Z) : Z :=
  match x with
  | Some n => if truthy_int n then n else d
  | None => d
  end.

(** [!x] and [x === s] for an optional string. *)
Definition not_string (x : option string) : bool :=
  match x with
  | Some s => negb (truthy_string s)
  | None => true
  end.

Definition strict_equal (x : option string) (s : string) : bool :=
  match x with
  | Some v => String.eqb v s
  | None => false
  end.

(** [xs[0]?.f] *)
Definition first_field {A B : Type} (xs : list A) (f : A -> option B)
  : option B :=
  match nth_error xs 0 with
  | Some x => f x
  | None => None
  end.

End Js.

(** ** src/types/index.ts *)

Module Types.

Module Env.
Record t : Type := mk {
  OPENAI_API_KEY : option string;
  ENVIRONMENT : option string
}.
End Env.

Module ChatMessage.
Record t : Type := mk {
  role : string;
  content : string
}.
End ChatMessage.

Module ChatInput.
Record t : Type := mk {
  messages : list ChatMessage.t;
  model : option string;
  temperature : option float;
  maxTokens : option Z
}.
End ChatInput.

Module CompletionInput.
Record t : Type := mk {
  prompt : string;
  model : option string;
  maxTokens : option Z;
  temperature : option float
}.
End CompletionInput.

Module Usage.
Record t : Type := mk {
  promptTokens : Z;
  completionTokens : Z;
  totalTokens : Z
}.
End Usage.

Module ChatResponse.
Record t : Type := mk {
  message : ChatMessage.t;
  model : string;
  usage : option Usage.t
}.
End ChatResponse.

Module CompletionResponse.
Record t : Type := mk {
  text : string;
  model : string;
  usage : option Usage.t
}.
End CompletionResponse.

Module Model.
Record t : Type := mk {
  id : string;
  object : string;
  created : Z;
  ownedBy : string
}.
End Model.

End Types.

(** ** Wire shapes of the provider client

    Only the fields the service touches.  A field the service tests for
    presence is optional here. *)

Module Provider.

Module ChatCompletionCreateParams.
Record t : Type := mk {
  model : string;
  messages : list Types.ChatMessage.t;
  temperature : float;
  max_tokens : Z
}.
End ChatCompletionCreateParams.

Module CompletionCreateParams.
Record t : Type := mk {
  model : string;
  prompt : string;
  max_tokens : Z;
  temperature : float
}.
End CompletionCreateParams.

Module CompletionUsage.
Record t : Type := mk {
  prompt_tokens : Z;
  completion_tokens : Z;
  total_tokens : Z
}.
End CompletionUsage.

Module ChatCompletionMessage.
Record t : Type := mk {
  role : string;
  content : option string
}.
End ChatCompletionMessage.

Module ChatChoice.
Record t : Type := mk {
  message : option ChatCompletionMessage.t
}.
End ChatChoice.

Module ChatCompletion.
Record t : Type := mk {
  choices : list ChatChoice.t;
  model : string;
  usage : option CompletionUsage.t
}.
End ChatCompletion.

Module CompletionChoice.
Record t : Type := mk {
  text : option string
}.
End CompletionChoice.

Module Completion.
Record t : Type := mk {
  choices : list CompletionChoice.t;
  model : string;
  usage : option CompletionUsage.t
}.
End Completion.

Module Model.
Record t : Type := mk {
  id : string;
  object : string;
  created : Z;
  owned_by : string
}.
End Model.

Module ModelsPage.
Record t : Type := mk {
  data : list Model.t
}.
End ModelsPage.

End Provider.

(** ** Effects *)

Module Effect.

Inductive outcome (A : Type) : Type :=
| Returned (a : A)
| Thrown (e : Js.thrown).

Arguments Returned {A} a.
Arguments Thrown {A} e.

(** What a computation does to the outside world, in order. *)
Inductive event : Type :=
| ChatCompletionsCreate (params : Provider.ChatCompletionCreateParams.t)
| CompletionsCreate (params : Provider.CompletionCreateParams.t)
| ModelsList
| ConsoleError (label : string) (error : Js.thrown)
| NewOpenAI (apiKey : string)
| CreateYoga (graphiql : bool)
| YogaFetch (method : string).

Definition M (A : Type) : Type := (outcome A * list event)%type.

Definition ret {A : Type} (a : A) : M A := (Returned a, []).

Definition throw {A : Type} (e : Js.thrown) : M A := (Thrown e, []).

Definition emit (ev : event) : M unit := (Returned tt, [ev]).

Definition lift {A : Type} (o : outcome A) : M A := (o, []).

Definition bind {A B : Type} (m : M A) (k : A -> M B) : M B :=
  match m with
  | (Returned a, t) => let (r, t') := k a in (r, t ++ t')
  | (Thrown e, t) => (Thrown e, t)
  end.

(** [try { m } catch (error) { handler error }] *)
Definition try_catch {A : Type} (m : M A) (handler : Js.thrown -> M A)
  : M A :=
  match m with
  | (Returned a, t) => (Returned a, t)
  | (Thrown e, t) => let (r, t') := handler e in (r, t ++ t')
  end.

Definition result_of {A : Type} (m : M A) : outcome A := fst m.
Definition trace_of {A : Type} (m : M A) : list event := snd m.

Definition console_error (label : string) (error : Js.thrown) : M unit :=
  emit (ConsoleError label error).

Definition is_provider_call (ev : event) : bool :=
  match ev with
  | ChatCompletionsCreate _ | CompletionsCreate _ | ModelsList => true
  | _ => false
  end.

(** The outbound calls to the provider found in a trace. *)
Definition provider_calls (t : list event) : list event :=
  filter is_provider_call t.

End Effect.

Import Effect.

Notation "x <- m ;; k" := (bind m (fun x => k))
  (at level 61, m at next level, right associativity).
Notation "m ;;; k" := (bind m (fun _ => k))
  (at level 61, right associativity).


(** ** src/services/openai.ts *)

Module Service.

Import Types.

(** The client object of the [openai] package, as far as the service uses
    it: [client.chat.completions.create], [client.completions.create] and
    [client.models.list].  Each call resolves to a response or rejects. *)
Record OpenAI : Type := mkOpenAI {
  chat_completions_create :
    Provider.ChatCompletionCreateParams.t -> outcome Provider.ChatCompletion.t;
  completions_create :
    Provider.CompletionCreateParams.t -> outcome Provider.Completion.t;
  models_list : outcome Provider.ModelsPage.t
}.

Record OpenAIService : Type := mkOpenAIService {
  client : OpenAI
}.

Definition await_chat_completions_create (c : OpenAI)
    (params : Provider.ChatCompletionCreateParams.t)
  : M Provider.ChatCompletion.t :=
  emit (ChatCompletionsCreate params) ;;;
  lift (chat_completions_create c params).

Definition await_completions_create (c : OpenAI)
    (params : Provider.CompletionCreateParams.t)
  : M Provider.Completion.t :=
  emit (CompletionsCreate params) ;;;
  lift (completions_create c params).

Definition await_models_list (c : OpenAI) : M Provider.ModelsPage.t :=
  emit ModelsList ;;;
  lift (models_list c).

(** The number [0.7] of the source, that is the binary64 value nearest to
    seven tenths. *)
Definition default_temperature : float := 0.7%float.

Definition default_maxTokens : Z := 1000.

(** [response.usage ? { promptTokens: ..., ... } : undefined] *)
Definition usage_of (u : option Provider.CompletionUsage.t) : option Usage.t :=
  match u with
  | Some usage =>
      Some {| Usage.promptTokens := Provider.CompletionUsage.prompt_tokens usage;
              Usage.completionTokens :=
                Provider.CompletionUsage.completion_tokens usage;
              Usage.totalTokens := Provider.CompletionUsage.total_tokens usage |}
  | None => None
  end.

(** The argument of [client.chat.completions.create] in [chat]. *)
Definition chat_params (input : ChatInput.t)
  : Provider.ChatCompletionCreateParams.t :=
  {| Provider.ChatCompletionCreateParams.model :=
       Js.or_string (ChatInput.model input) "gpt-3.5-turbo";
     Provider.ChatCompletionCreateParams.messages := ChatInput.messages input;
     Provider.ChatCompletionCreateParams.temperature :=
       Js.or_number (ChatInput.temperature input) default_temperature;
     Provider.ChatCompletionCreateParams.max_tokens :=
       Js.or_int (ChatInput.maxTokens input) default_maxTokens |}.

Definition chat (this : OpenAIService) (input : ChatInput.t)
  : M ChatResponse.t :=
  try_catch
    (response <- await_chat_completions_create (client this) (chat_params input) ;;
     match Js.first_field (Provider.ChatCompletion.choices response)
             Provider.ChatChoice.message with
     | None => throw (Js.Error "No message in response")
     | Some message =>
         ret {| ChatResponse.message :=
                  {| ChatMessage.role :=
                       Provider.ChatCompletionMessage.role message;
                     ChatMessage.content :=
                       Js.or_string
                         (Provider.ChatCompletionMessage.content message)
                         EmptyString |};
                ChatResponse.model := Provider.ChatCompletion.model response;
                ChatResponse.usage :=
                  usage_of (Provider.ChatCompletion.usage response) |}
     end)
    (fun error =>
       console_error "OpenAI Chat Error:" error ;;;
       throw (Js.Error ("Failed to generate chat response: "
                        ++ Js.message_or_unknown error)%string)).

(** The argument of [client.completions.create] in [completion]. *)
Definition completion_params (input : CompletionInput.t)
  : Provider.CompletionCreateParams.t :=
  {| Provider.CompletionCreateParams.model :=
       Js.or_string (CompletionInput.model input) "gpt-3.5-turbo-instruct";
     Provider.CompletionCreateParams.prompt := CompletionInput.prompt input;
     Provider.CompletionCreateParams.max_tokens :=
       Js.or_int (CompletionInput.maxTokens input) default_maxTokens;
     Provider.CompletionCreateParams.temperature :=
       Js.or_number (CompletionInput.temperature input) default_temperature |}.

Definition completion (this : OpenAIService) (input : CompletionInput.t)
  : M CompletionResponse.t :=
  try_catch
    (response <- await_completions_create (client this)
                   (completion_params input) ;;
     match Js.first_field (Provider.Completion.choices response)
             Provider.CompletionChoice.text with
     | None => throw (Js.Error "No text in response")
     | Some text =>
         ret {| CompletionResponse.text := text;
                CompletionResponse.model := Provider.Completion.model response;
                CompletionResponse.usage :=
                  usage_of (Provider.Completion.usage response) |}
     end)
    (fun error =>
       console_error "OpenAI Completion Error:" error ;;;
       throw (Js.Error ("Failed to generate completion: "
                        ++ Js.message_or_unknown error)%string)).

Definition getModels (this : OpenAIService) : M (list Model.t) :=
  try_catch
    (response <- await_models_list (client this) ;;
     ret (map (fun model =>
                 {| Model.id := Provider.Model.id model;
                    Model.object := Provider.Model.object model;
                    Model.created := Provider.Model.created model;
                    Model.ownedBy := Provider.Model.owned_by model |})
              (Provider.ModelsPage.data response)))
    (fun error =>
       console_error "OpenAI Models Error:" error ;;;
       throw (Js.Error ("Failed to fetch models: "
                        ++ Js.message_or_unknown error)%string)).

Section Construction.

(** [new OpenAI({ apiKey })], the constructor of the provider client. *)
Variable new_OpenAI : string -> outcome OpenAI.

(** [new OpenAIService(apiKey)] *)
Definition new_OpenAIService (apiKey : string) : M OpenAIService :=
  emit (NewOpenAI apiKey) ;;;
  c <- lift (new_OpenAI apiKey) ;;
  ret {| client := c |}.

(** [if (!env.OPENAI_API_KEY) throw ...; return new OpenAIService(...)]:
    the key is falsy when it is missing or empty. *)
Definition createOpenAIService (env : Env.t) : M OpenAIService :=
  match Env.OPENAI_API_KEY env with
  | Some apiKey =>
      if Js.truthy_string apiKey then new_OpenAIService apiKey
      else throw (Js.Error "OPENAI_API_KEY is not configured")
  | None => throw (Js.Error "OPENAI_API_KEY is not configured")
  end.

End Construction.

End Service.

(** ** src/schema/resolvers.ts *)

Module Resolvers.

Import Types.

Record Context : Type := mkContext {
  openai : Service.OpenAIService
}.

Module Query.

Definition health : M string := ret "OK".

Definition models (_parent _args : unit) (context : Context)
  : M (list Model.t) :=
  Service.getModels (openai context).

End Query.

Module Mutation.

(** The [args] object of a mutation, [{ input }]. *)
Record Args (I : Type) : Type := mkArgs {
  input : I
}.

Arguments mkArgs {I} input.
Arguments input {I} a.

Definition chat (_parent : unit) (args : Args ChatInput.t) (context : Context)
  : M ChatResponse.t :=
  Service.chat (openai context) (input args).

Definition completion (_parent : unit) (args : Args CompletionInput.t)
    (context : Context)
  : M CompletionResponse.t :=
  Service.completion (openai context) (input args).

End Mutation.

End Resolvers.

(** ** Requests, responses and header lists of the Fetch API *)

Module Http.

Definition lower_ascii (c : ascii) : ascii :=
  let n := nat_of_ascii c in
  if ((65 <=? n) && (n <=? 90))%nat then ascii_of_nat (n + 32) else c.

Fixpoint lower (s : string) : string :=
  match s with
  | EmptyString => EmptyString
  | String c rest => String (lower_ascii c) (lower rest)
  end.

(** A [Headers] object: names are case-insensitive and kept in lower case. *)
Definition Headers : Type := list (string * string).

Definition named (name : string) (entry : string * string) : bool :=
  String.eqb (fst entry) (lower name).

Definition Headers_has (name : string) (h : Headers) : bool :=
  existsb (named name) h.

(** [headers.get(name)]: the values under that name joined by a comma and a
    space, [null] when there is none. *)
Definition Headers_get (name : string) (h : Headers) : option string :=
  match filter (named name) h with
  | [] => None
  | entries => Some (String.concat ", " (map snd entries))
  end.

Definition Headers_append (name value : string) (h : Headers) : Headers :=
  h ++ [(lower name, value)].

(** [headers.set(name, value)]: the name ends up with that single value. *)
Definition Headers_set (name value : string) (h : Headers) : Headers :=
  filter (fun entry => negb (named name entry)) h ++ [(lower name, value)].

(** A plain object with string values, as a list of its own properties in
    insertion order. *)
Definition Object : Type := list (string * string).

Definition Object_entries (o : Object) : list (string * string) := o.

(** Assignment of one property: an existing key keeps its place. *)
Fixpoint Object_assign (o : Object) (key value : string) : Object :=
  match o with
  | [] => [(key, value)]
  | (k, v) :: rest =>
      if String.eqb k key then (k, value) :: rest
      else (k, v) :: Object_assign rest key value
  end.

(** [{ ...o, ...spread }] *)
Definition Object_spread (o spread : Object) : Object :=
  fold_left (fun acc entry => Object_assign acc (fst entry) (snd entry))
            (Object_entries spread) o.

(** [new Headers(init)] for a plain object. *)
Definition Headers_of_object (init : Object) : Headers :=
  fold_left (fun h entry => Headers_append (fst entry) (snd entry) h)
            (Object_entries init) [].

Module Request.
Record t : Type := mk {
  method : string;
  url : string;
  headers : Headers;
  body : option string
}.
End Request.

Module Response.
Record t : Type := mk {
  status : Z;
  headers : Headers;
  body : option string
}.
End Response.

(** [new Response(body, { status, headers })] with a string or [null] body.
    A string body brings a default content type when the init has none. *)
Definition new_Response (body : option string) (status : Z) (headers : Object)
  : Response.t :=
  let h := Headers_of_object headers in
  {| Response.status := status;
     Response.headers :=
       match body with
       | Some _ =>
           if Headers_has "Content-Type" h then h
           else Headers_append "Content-Type" "text/plain;charset=UTF-8" h
       | None => h
       end;
     Response.body := body |}.

(** [new Response(response.body, response)]: the stream of an existing
    response under a copy of its status and headers. *)
Definition Response_rewrap (response : Response.t) : Response.t :=
  {| Response.status := Response.status response;
     Response.headers := Response.headers response;
     Response.body := Response.body response |}.

Definition Response_set_header (r : Response.t) (name value : string)
  : Response.t :=
  {| Response.status := Response.status r;
     Response.headers := Headers_set name value (Response.headers r);
     Response.body := Response.body r |}.

End Http.

(** ** [JSON.stringify] on objects whose values are strings *)

Module Json.

Definition quotation_mark : ascii := ascii_of_nat 34.
Definition reverse_solidus : ascii := ascii_of_nat 92.

Definition hex_digit (n : nat) : ascii :=
  if (n <? 10)%nat then ascii_of_nat (48 + n) else ascii_of_nat (87 + n).

Definition char (c : ascii) : string := String c EmptyString.

Definition escaped (c : ascii) : string :=
  String reverse_solidus (char c).

(** The escape of one code unit in [QuoteJSONString]. *)
Definition quote_char (c : ascii) : string :=
  let n := nat_of_ascii c in
  if (n =? 8)%nat then escaped "b"
  else if (n =? 9)%nat then escaped "t"
  else if (n =? 10)%nat then escaped "n"
  else if (n =? 12)%nat then escaped "f"
  else if (n =? 13)%nat then escaped "r"
  else if (n =? 34)%nat then escaped quotation_mark
  else if (n =? 92)%nat then escaped reverse_solidus
  else if (n <? 32)%nat then
    (escaped "u" ++ "00"
       ++ char (hex_digit (n / 16)) ++ char (hex_digit (n mod 16)))%string
  else char c.

Fixpoint quote_chars (s : string) : string :=
  match s with
  | EmptyString => EmptyString
  | String c rest => (quote_char c ++ quote_chars rest)%string
  end.

Definition quote (s : string) : string :=
  (char quotation_mark ++ quote_chars s ++ char quotation_mark)%string.

Definition member (entry : string * string) : string :=
  (quote (fst entry) ++ ":" ++ quote (snd entry))%string.

Definition stringify (o : Http.Object) : string :=
  ("{" ++ String.concat "," (map member (Http.Object_entries o)) ++ "}")%string.

End Json.

(** ** src/index.ts *)

Module Worker.

Import Types Http.

(** [createSchema({ typeDefs, resolvers })]: the resolvers by field, each
    called by the execution engine with the parent value, the arguments and
    the context. *)
Record Schema : Type := mkSchema {
  Query_health : unit -> unit -> Resolvers.Context -> M string;
  Query_models : unit -> unit -> Resolvers.Context -> M (list Model.t);
  Mutation_chat :
    unit -> Resolvers.Mutation.Args ChatInput.t -> Resolvers.Context
    -> M ChatResponse.t;
  Mutation_completion :
    unit -> Resolvers.Mutation.Args CompletionInput.t -> Resolvers.Context
    -> M CompletionResponse.t
}.

Definition schema : Schema :=
  {| Query_health := fun _ _ _ => Resolvers.Query.health;
     Query_models := Resolvers.Query.models;
     Mutation_chat := Resolvers.Mutation.chat;
     Mutation_completion := Resolvers.Mutation.completion |}.

Record CorsOptions : Type := mkCorsOptions {
  origin : string;
  credentials : bool;
  methods : list string;
  allowedHeaders : list string
}.

(** The options object given to [createYoga]. *)
Record YogaServerOptions : Type := mkYogaServerOptions {
  options_schema : Schema;
  context : Resolvers.Context;
  graphiql : bool;
  cors : CorsOptions;
  landingPage : bool
}.

(** The server made by [createYoga]: its [fetch] runs a request against the
    schema, which is where resolvers get called. *)
Record YogaServer : Type := mkYogaServer {
  handle : Request.t -> Resolvers.Context -> M Response.t
}.

Definition corsHeaders : Object :=
  [ ("Access-Control-Allow-Origin", "*");
    ("Access-Control-Allow-Methods", "GET, POST, OPTIONS");
    ("Access-Control-Allow-Headers", "Content-Type, Authorization") ].

(** [env.ENVIRONMENT === 'development' || !env.ENVIRONMENT] *)
Definition graphiql_enabled (env : Env.t) : bool :=
  Js.strict_equal (Env.ENVIRONMENT env) "development"
  || Js.not_string (Env.ENVIRONMENT env).

Definition yoga_options (env : Env.t) (openai : Service.OpenAIService)
  : YogaServerOptions :=
  {| options_schema := schema;
     context := {| Resolvers.openai := openai |};
     graphiql := graphiql_enabled env;
     cors := {| origin := "*";
                credentials := true;
                methods := ["GET"; "POST"; "OPTIONS"];
                allowedHeaders := ["Content-Type"; "Authorization"] |};
     landingPage := false |}.

(** The body of the catch-all response. *)
Definition error_body (error : Js.thrown) : string :=
  Json.stringify
    [ ("error", "Internal Server Error");
      ("message", Js.message_or_unknown error) ].

Section Fetch.

Variable new_OpenAI : string -> outcome Service.OpenAI.
Variable createYoga : YogaServerOptions -> outcome YogaServer.

Definition call_createYoga (options : YogaServerOptions) : M YogaServer :=
  emit (CreateYoga (graphiql options)) ;;;
  lift (createYoga options).

Definition await_yoga_fetch (yoga : YogaServer) (request : Request.t)
    (serverContext : Resolvers.Context)
  : M Response.t :=
  emit (YogaFetch (Request.method request)) ;;;
  handle yoga request serverContext.

Definition fetch (request : Request.t) (env : Env.t) (ctx : unit)
  : M Response.t :=
  if String.eqb (Request.method request) "OPTIONS" then
    ret (new_Response None 204 corsHeaders)
  else
    try_catch
      (openai <- Service.createOpenAIService new_OpenAI env ;;
       yoga <- call_createYoga (yoga_options env openai) ;;
       response <- await_yoga_fetch yoga request
                     {| Resolvers.openai := openai |} ;;
       let newResponse := Response_rewrap response in
       ret (fold_left
              (fun r entry => Response_set_header r (fst entry) (snd entry))
              (Object_entries corsHeaders) newResponse))
      (fun error =>
         console_error "Worker Error:" error ;;;
         ret (new_Response (Some (error_body error)) 500
                (Object_spread [("Content-Type", "application/json")]
                               corsHeaders))).

End Fetch.

End Worker.

(** The three cross-origin headers, read back from a response. *)
Definition carries_cors (response : Http.Response.t) : Prop :=
  Http.Headers_get "Access-Control-Allow-Origin"
    (Http.Response.headers response) = Some "*"
  /\ Http.Headers_get "Access-Control-Allow-Methods"
       (Http.Response.headers response) = Some "GET, POST, OPTIONS"
  /\ Http.Headers_get "Access-Control-Allow-Headers"
       (Http.Response.headers response)
     = Some "Content-Type, Authorization".

(** ** Concrete scenarios

    Inputs, provider answers and environments on which the properties
    below are exercised. *)

Module Scenario.

Import Types.

(** The example of the specification: one user message, nothing else. *)
Definition hello : ChatInput.t :=
  {| ChatInput.messages :=
       [ {| ChatMessage.role := "user"; ChatMessage.content := "Hello" |} ];
     ChatInput.model := None;
     ChatInput.temperature := None;
     ChatInput.maxTokens := None |}.

Definition hello_cold : ChatInput.t :=
  {| ChatInput.messages := ChatInput.messages hello;
     ChatInput.model := Some "gpt-4";
     ChatInput.temperature := Some 0%float;
     ChatInput.maxTokens := Some 16 |}.

Definition once_upon : CompletionInput.t :=
  {| CompletionInput.prompt := "Once upon a time";
     CompletionInput.model := None;
     CompletionInput.maxTokens := None;
     CompletionInput.temperature := None |}.

Definition once_upon_cold : CompletionInput.t :=
  {| CompletionInput.prompt := "Once upon a time";
     CompletionInput.model := None;
     CompletionInput.maxTokens := Some 16;
     CompletionInput.temperature := Some 0%float |}.

Definition usage_5_3_8 : Provider.CompletionUsage.t :=
  {| Provider.CompletionUsage.prompt_tokens := 5;
     Provider.CompletionUsage.completion_tokens := 3;
     Provider.CompletionUsage.total_tokens := 8 |}.

Definition hi_there : Provider.ChatCompletion.t :=
  {| Provider.ChatCompletion.choices :=
       [ {| Provider.ChatChoice.message :=
              Some {| Provider.ChatCompletionMessage.role := "assistant";
                      Provider.ChatCompletionMessage.content :=
                        Some "Hi there" |} |} ];
     Provider.ChatCompletion.model := "gpt-3.5-turbo";
     Provider.ChatCompletion.usage := Some usage_5_3_8 |}.

Definition no_choices : Provider.ChatCompletion.t :=
  {| Provider.ChatCompletion.choices := [];
     Provider.ChatCompletion.model := "gpt-3.5-turbo";
     Provider.ChatCompletion.usage := None |}.

Definition empty_text : Provider.Completion.t :=
  {| Provider.Completion.choices :=
       [ {| Provider.CompletionChoice.text := Some EmptyString |} ];
     Provider.Completion.model := "gpt-3.5-turbo-instruct";
     Provider.Completion.usage := Some usage_5_3_8 |}.

Definition no_models : Provider.ModelsPage.t :=
  {| Provider.ModelsPage.data := [] |}.

(** A provider that answers every call the same way. *)
Definition answering (chat : Provider.ChatCompletion.t)
  : Service.OpenAIService :=
  {| Service.client :=
       {| Service.chat_completions_create := fun _ => Returned chat;
          Service.completions_create := fun _ => Returned empty_text;
          Service.models_list := Returned no_models |} |}.

(** A provider that rejects every call with the same value. *)
Definition rejecting (e : Js.thrown) : Service.OpenAIService :=
  {| Service.client :=
       {| Service.chat_completions_create := fun _ => Thrown e;
          Service.completions_create := fun _ => Thrown e;
          Service.models_list := Thrown e |} |}.

Definition unauthorized : Js.thrown := Js.Error "401 Incorrect API key".

Definition new_OpenAI (apiKey : string) : outcome Service.OpenAI :=
  Returned (Service.client (answering hi_there)).

Definition no_content : Http.Response.t :=
  {| Http.Response.status := 200;
     Http.Response.headers := [("content-type", "application/json")];
     Http.Response.body := None |}.

Definition createYoga (options : Worker.YogaServerOptions)
  : outcome Worker.YogaServer :=
  Returned {| Worker.handle := fun _ _ => ret no_content |}.

Definition unconfigured : Env.t :=
  {| Env.OPENAI_API_KEY := None; Env.ENVIRONMENT := None |}.

Definition blank_marker : Env.t :=
  {| Env.OPENAI_API_KEY := Some "sk-test";
     Env.ENVIRONMENT := Some EmptyString |}.

Definition production : Env.t :=
  {| Env.OPENAI_API_KEY := Some "sk-test";
     Env.ENVIRONMENT := Some "production" |}.

(** The text [{"error":"Internal Server Error","message":"OPENAI_API_KEY
    is not configured"}], spelled with explicit quotation marks. *)
Definition in_quotes (s : string) : string :=
  (Json.char Json.quotation_mark ++ s ++ Json.char Json.quotation_mark)%string.

Definition not_configured_body : string :=
  ("{" ++ in_quotes "error" ++ ":" ++ in_quotes "Internal Server Error"
   ++ "," ++ in_quotes "message" ++ ":"
   ++ in_quotes "OPENAI_API_KEY is not configured" ++ "}")%string.

Definition request (method : string) : Http.Request.t :=
  {| Http.Request.method := method;
     Http.Request.url := "https://gateway.example/graphql";
     Http.Request.headers := [];
     Http.Request.body := None |}.

End Scenario.

(** ** Parts of the edge handler, and further scenarios *)

Module Edge.

Import Types.

(** Lines 104 to 107 of [src/index.ts], as they stand in [Worker.fetch]: the
    response of the GraphQL server is wrapped again and each cross-origin
    header is set on it. *)
Definition with_cors (response : Http.Response.t) : Http.Response.t :=
  fold_left
    (fun r entry => Http.Response_set_header r (fst entry) (snd entry))
    (Http.Object_entries Worker.corsHeaders)
    (Http.Response_rewrap response).

(** The response built by the catch clause of [Worker.fetch]. *)
Definition catch_all (error : Js.thrown) : Http.Response.t :=
  Http.new_Response (Some (Worker.error_body error)) 500
    (Http.Object_spread [("Content-Type", "application/json")]
       Worker.corsHeaders).

(** A header name other than the three cross-origin ones. *)
Definition not_cors_name (name : string) : Prop :=
  Http.lower name <> "access-control-allow-origin"
  /\ Http.lower name <> "access-control-allow-methods"
  /\ Http.lower name <> "access-control-allow-headers".

Definition warm : ChatInput.t :=
  {| ChatInput.messages := [];
     ChatInput.model := Some "gpt-4";
     ChatInput.temperature := Some 1.5%float;
     ChatInput.maxTokens := Some (-5) |}.

Definition warm_prompt : CompletionInput.t :=
  {| CompletionInput.prompt := "Once upon a time";
     CompletionInput.model := Some "davinci-002";
     CompletionInput.maxTokens := Some 16;
     CompletionInput.temperature := Some 1.5%float |}.

(** An answer whose message has no content and whose model differs from the
    one asked for. *)
Definition silent : Provider.ChatCompletion.t :=
  {| Provider.ChatCompletion.choices :=
       [ {| Provider.ChatChoice.message :=
              Some {| Provider.ChatCompletionMessage.role := "assistant";
                      Provider.ChatCompletionMessage.content := None |} |} ];
     Provider.ChatCompletion.model := "gpt-4-0613";
     Provider.ChatCompletion.usage := None |}.

Definition no_text : Provider.Completion.t :=
  {| Provider.Completion.choices :=
       [ {| Provider.CompletionChoice.text := None |} ];
     Provider.Completion.model := "gpt-3.5-turbo-instruct";
     Provider.Completion.usage := None |}.

Definition the_end : Provider.Completion.t :=
  {| Provider.Completion.choices :=
       [ {| Provider.CompletionChoice.text := Some " The end." |};
         {| Provider.CompletionChoice.text := Some "unused" |} ];
     Provider.Completion.model := "gpt-3.5-turbo-instruct";
     Provider.Completion.usage := None |}.

Definition two_models : Provider.ModelsPage.t :=
  {| Provider.ModelsPage.data :=
       [ {| Provider.Model.id := "gpt-4";
            Provider.Model.object := "model";
            Provider.Model.created := 1687882411;
            Provider.Model.owned_by := "openai" |};
         {| Provider.Model.id := "davinci-002";
            Provider.Model.object := "model";
            Provider.Model.created := 1692634301;
            Provider.Model.owned_by := "system" |} ] |}.

(** A provider with one fixed answer per call. *)
Definition provider (chat : Provider.ChatCompletion.t)
    (completion : Provider.Completion.t) (models : Provider.ModelsPage.t)
  : Service.OpenAIService :=
  {| Service.client :=
       {| Service.chat_completions_create := fun _ => Returned chat;
          Service.completions_create := fun _ => Returned completion;
          Service.models_list := Returned models |} |}.

Definition configured : Env.t :=
  {| Env.OPENAI_API_KEY := Some "sk-test";
     Env.ENVIRONMENT := Some "development" |}.

(** A response of the GraphQL server that already has a cross-origin header
    and one of its own. *)
Definition tagged : Http.Response.t :=
  {| Http.Response.status := 200;
     Http.Response.headers :=
       [ ("content-type", "application/json");
         ("access-control-allow-origin", "https://app.example");
         ("x-request-id", "42") ];
     Http.Response.body := Some "ok" |}.

Definition yoga_answering (response : Http.Response.t)
    (options : Worker.YogaServerOptions)
  : outcome Worker.YogaServer :=
  Returned {| Worker.handle := fun _ _ => ret response |}.

Definition yoga_rejecting (e : Js.thrown) (options : Worker.YogaServerOptions)
  : outcome Worker.YogaServer :=
  Returned {| Worker.handle := fun _ _ => throw e |}.

Definition yoga_unavailable (e : Js.thrown)
    (options : Worker.YogaServerOptions)
  : outcome Worker.YogaServer :=
  Thrown e.

Definition is_console_error (ev : event) : bool :=
  match ev with
  | ConsoleError _ _ => true
  | _ => false
  end.

End Edge.

(** * Properties *)

(** ** The health query *)

(** C9: the health query returns the literal string OK for every parent,
    argument and context (hence whatever the provider client in the context
    would answer), and its trace is empty: it calls nothing outside, in
    particular not the provider. *)
Theorem health_always_OK :
  forall (parent args : unit) (context : Resolvers.Context),
    let run := Worker.Query_health Worker.schema parent args context in
    result_of run = Returned "OK"
    /\ trace_of run = []
    /\ provider_calls (trace_of run) = [].
Proof.
  intros parent args context run.
  repeat split; reflexivity.
Qed.

(** ** Running the service on a known provider answer *)

Lemma first_field_nil {A B : Type} (f : A -> option B) :
  Js.first_field [] f = None.
Proof. reflexivity. Qed.

Lemma first_field_cons {A B : Type} (f : A -> option B) (x : A) (xs : list A) :
  Js.first_field (x :: xs) f = f x.
Proof. reflexivity. Qed.

Lemma first_field_absent {A B : Type} (f : A -> option B) (xs : list A) :
  Js.first_field xs f = None
  <-> xs = [] \/ exists x rest, xs = x :: rest /\ f x = None.
Proof.
  destruct xs as [|x rest]; cbn.
  - split; auto.
  - split.
    + intros H. right. exists x, rest. auto.
    + intros [H | (y & r & E & H)]; [discriminate | ].
      injection E as -> _. exact H.
Qed.

(** [chat] when the provider call resolves. *)
Lemma chat_resolved (this : Service.OpenAIService) (input : Types.ChatInput.t)
    (response : Provider.ChatCompletion.t) :
  Service.chat_completions_create (Service.client this)
    (Service.chat_params input) = Returned response ->
  Service.chat this input =
  match Js.first_field (Provider.ChatCompletion.choices response)
          Provider.ChatChoice.message with
  | None =>
      (Thrown (Js.Error
                 "Failed to generate chat response: No message in response"),
       [ ChatCompletionsCreate (Service.chat_params input);
         ConsoleError "OpenAI Chat Error:"
           (Js.Error "No message in response") ])
  | Some message =>
      (Returned
         {| Types.ChatResponse.message :=
              {| Types.ChatMessage.role :=
                   Provider.ChatCompletionMessage.role message;
                 Types.ChatMessage.content :=
                   Js.or_string
                     (Provider.ChatCompletionMessage.content message)
                     EmptyString |};
            Types.ChatResponse.model := Provider.ChatCompletion.model response;
            Types.ChatResponse.usage :=
              Service.usage_of (Provider.ChatCompletion.usage response) |},
       [ ChatCompletionsCreate (Service.chat_params input) ])
  end.
Proof.
  intros Hcall.
  unfold Service.chat, Service.await_chat_completions_create.
  unfold bind, try_catch, emit, lift, console_error.
  rewrite Hcall.
  destruct (Js.first_field _ _); reflexivity.
Qed.

(** [chat] when the provider call rejects. *)
Lemma chat_rejected (this : Service.OpenAIService) (input : Types.ChatInput.t)
    (e : Js.thrown) :
  Service.chat_completions_create (Service.client this)
    (Service.chat_params input) = Thrown e ->
  Service.chat this input =
  (Thrown (Js.Error ("Failed to generate chat response: "
                     ++ Js.message_or_unknown e)%string),
   [ ChatCompletionsCreate (Service.chat_params input);
     ConsoleError "OpenAI Chat Error:" e ]).
Proof.
  intros Hcall.
  unfold Service.chat, Service.await_chat_completions_create.
  unfold bind, try_catch, emit, lift, console_error.
  rewrite Hcall. reflexivity.
Qed.

Lemma completion_resolved (this : Service.OpenAIService)
    (input : Types.CompletionInput.t) (response : Provider.Completion.t) :
  Service.completions_create (Service.client this)
    (Service.completion_params input) = Returned response ->
  Service.completion this input =
  match Js.first_field (Provider.Completion.choices response)
          Provider.CompletionChoice.text with
  | None =>
      (Thrown (Js.Error "Failed to generate completion: No text in response"),
       [ CompletionsCreate (Service.completion_params input);
         ConsoleError "OpenAI Completion Error:"
           (Js.Error "No text in response") ])
  | Some text =>
      (Returned
         {| Types.CompletionResponse.text := text;
            Types.CompletionResponse.model :=
              Provider.Completion.model response;
            Types.CompletionResponse.usage :=
              Service.usage_of (Provider.Completion.usage response) |},
       [ CompletionsCreate (Service.completion_params input) ])
  end.
Proof.
  intros Hcall.
  unfold Service.completion, Service.await_completions_create.
  unfold bind, try_catch, emit, lift, console_error.
  rewrite Hcall.
  destruct (Js.first_field _ _); reflexivity.
Qed.

Lemma completion_rejected (this : Service.OpenAIService)
    (input : Types.CompletionInput.t) (e : Js.thrown) :
  Service.completions_create (Service.client this)
    (Service.completion_params input) = Thrown e ->
  Service.completion this input =
  (Thrown (Js.Error ("Failed to generate completion: "
                     ++ Js.message_or_unknown e)%string),
   [ CompletionsCreate (Service.completion_params input);
     ConsoleError "OpenAI Completion Error:" e ]).
Proof.
  intros Hcall.
  unfold Service.completion, Service.await_completions_create.
  unfold bind, try_catch, emit, lift, console_error.
  rewrite Hcall. reflexivity.
Qed.

Lemma getModels_rejected (this : Service.OpenAIService) (e : Js.thrown) :
  Service.models_list (Service.client this) = Thrown e ->
  Service.getModels this =
  (Thrown (Js.Error ("Failed to fetch models: "
                     ++ Js.message_or_unknown e)%string),
   [ ModelsList; ConsoleError "OpenAI Models Error:" e ]).
Proof.
  intros Hcall.
  unfold Service.getModels, Service.await_models_list.
  unfold bind, try_catch, emit, lift, console_error.
  rewrite Hcall. reflexivity.
Qed.

(** Whatever the provider answers, each operation calls it once, with the
    parameters built from the input. *)
Lemma chat_calls_once (this : Service.OpenAIService)
    (input : Types.ChatInput.t) :
  provider_calls (trace_of (Service.chat this input))
  = [ChatCompletionsCreate (Service.chat_params input)].
Proof.
  destruct (Service.chat_completions_create (Service.client this)
              (Service.chat_params input)) as [response | e] eqn:Hcall.
  - rewrite (chat_resolved _ _ _ Hcall).
    destruct (Js.first_field _ _); reflexivity.
  - rewrite (chat_rejected _ _ _ Hcall). reflexivity.
Qed.

Lemma completion_calls_once (this : Service.OpenAIService)
    (input : Types.CompletionInput.t) :
  provider_calls (trace_of (Service.completion this input))
  = [CompletionsCreate (Service.completion_params input)].
Proof.
  destruct (Service.completions_create (Service.client this)
              (Service.completion_params input)) as [response | e] eqn:Hcall.
  - rewrite (completion_resolved _ _ _ Hcall).
    destruct (Js.first_field _ _); reflexivity.
  - rewrite (completion_rejected _ _ _ Hcall). reflexivity.
Qed.

Lemma getModels_calls_once (this : Service.OpenAIService) :
  provider_calls (trace_of (Service.getModels this)) = [ModelsList].
Proof.
  unfold Service.getModels, Service.await_models_list.
  unfold bind, try_catch, emit, lift, console_error.
  destruct (Service.models_list (Service.client this)); reflexivity.
Qed.

(** ** Failures of the chat operation *)

(** C1, as stated, fails: on a provider answer with no choices the chat
    operation does fail, but the message of its error is the wrapped one,
    not the bare text. *)
Lemma chat_no_message_is_not_bare :
  result_of (Service.chat (Scenario.answering Scenario.no_choices)
               Scenario.hello)
  = Thrown (Js.Error
              "Failed to generate chat response: No message in response")
  /\ result_of (Service.chat (Scenario.answering Scenario.no_choices)
                  Scenario.hello)
     <> Thrown (Js.Error "No message in response").
Proof.
  split.
  - reflexivity.
  - cbn. intros H. discriminate H.
Qed.

(** C1, amended: when the provider answers with an empty choices list, or
    with a first choice that has no message, the chat operation fails with
    an error whose message is exactly
    "Failed to generate chat response: No message in response": the bare
    error is thrown inside the try block and goes through the same catch
    clause as a failed provider call, which logs it and wraps it.  The chat
    resolver hands that same failure to the execution engine. *)
Theorem chat_no_message_wrapped :
  forall (this : Service.OpenAIService) (input : Types.ChatInput.t)
         (response : Provider.ChatCompletion.t),
    Service.chat_completions_create (Service.client this)
      (Service.chat_params input) = Returned response ->
    (Provider.ChatCompletion.choices response = []
     \/ exists choice rest,
          Provider.ChatCompletion.choices response = choice :: rest
          /\ Provider.ChatChoice.message choice = None) ->
    result_of (Service.chat this input)
    = Thrown (Js.Error
                "Failed to generate chat response: No message in response")
    /\ In (ConsoleError "OpenAI Chat Error:"
             (Js.Error "No message in response"))
          (trace_of (Service.chat this input))
    /\ Resolvers.Mutation.chat tt (Resolvers.Mutation.mkArgs input)
         {| Resolvers.openai := this |}
       = Service.chat this input.
Proof.
  intros this input response Hcall Hnone.
  apply first_field_absent in Hnone.
  rewrite (chat_resolved _ _ _ Hcall), Hnone.
  repeat split.
  - cbn. auto.
  - unfold Resolvers.Mutation.chat. cbn.
    rewrite (chat_resolved _ _ _ Hcall), Hnone. reflexivity.
Qed.

Lemma chat_no_message_wrapped_witness :
  result_of (Service.chat (Scenario.answering Scenario.no_choices)
               Scenario.hello)
  = Thrown (Js.Error
              "Failed to generate chat response: No message in response").
Proof.
  apply (chat_no_message_wrapped (Scenario.answering Scenario.no_choices)
           Scenario.hello Scenario.no_choices).
  - reflexivity.
  - left. reflexivity.
Defined.

(** ** Defaults sent to the provider *)

Lemma default_temperature_not_zero :
  Service.default_temperature <> 0%float.
Proof.
  intros H.
  assert (E : PrimFloat.eqb Service.default_temperature 0%float
              = PrimFloat.eqb 0%float 0%float) by (rewrite H; reflexivity).
  vm_compute in E. discriminate E.
Qed.

(** C2: the chat operation makes one provider call, whose model is
    "gpt-3.5-turbo" when the input has no model, whose temperature is 0.7
    when the input has no temperature and whose max_tokens is 1000 when the
    input has no maxTokens; the completion operation likewise, with model
    "gpt-3.5-turbo-instruct". *)
Theorem absent_fields_take_defaults :
  (forall (this : Service.OpenAIService) (input : Types.ChatInput.t),
      exists params,
        provider_calls (trace_of (Service.chat this input))
        = [ChatCompletionsCreate params]
        /\ (Types.ChatInput.model input = None ->
            Provider.ChatCompletionCreateParams.model params
            = "gpt-3.5-turbo")
        /\ (Types.ChatInput.temperature input = None ->
            Provider.ChatCompletionCreateParams.temperature params
            = 0.7%float)
        /\ (Types.ChatInput.maxTokens input = None ->
            Provider.ChatCompletionCreateParams.max_tokens params = 1000))
  /\
  (forall (this : Service.OpenAIService) (input : Types.CompletionInput.t),
      exists params,
        provider_calls (trace_of (Service.completion this input))
        = [CompletionsCreate params]
        /\ (Types.CompletionInput.model input = None ->
            Provider.CompletionCreateParams.model params
            = "gpt-3.5-turbo-instruct")
        /\ (Types.CompletionInput.temperature input = None ->
            Provider.CompletionCreateParams.temperature params = 0.7%float)
        /\ (Types.CompletionInput.maxTokens input = None ->
            Provider.CompletionCreateParams.max_tokens params = 1000)).
Proof.
  split; intros this input.
  - exists (Service.chat_params input).
    split; [apply chat_calls_once | ].
    repeat split; intros H; cbn; rewrite H; reflexivity.
  - exists (Service.completion_params input).
    split; [apply completion_calls_once | ].
    repeat split; intros H; cbn; rewrite H; reflexivity.
Qed.

Lemma absent_fields_take_defaults_witness :
  (exists params,
      provider_calls
        (trace_of (Service.chat (Scenario.answering Scenario.hi_there)
                     Scenario.hello))
      = [ChatCompletionsCreate params]
      /\ Provider.ChatCompletionCreateParams.model params = "gpt-3.5-turbo"
      /\ Provider.ChatCompletionCreateParams.temperature params = 0.7%float
      /\ Provider.ChatCompletionCreateParams.max_tokens params = 1000)
  /\
  (exists params,
      provider_calls
        (trace_of (Service.completion (Scenario.answering Scenario.hi_there)
                     Scenario.once_upon))
      = [CompletionsCreate params]
      /\ Provider.CompletionCreateParams.model params
         = "gpt-3.5-turbo-instruct"
      /\ Provider.CompletionCreateParams.temperature params = 0.7%float
      /\ Provider.CompletionCreateParams.max_tokens params = 1000).
Proof.
  split.
  - destruct (proj1 absent_fields_take_defaults
                (Scenario.answering Scenario.hi_there) Scenario.hello)
      as (params & Hcalls & Hmodel & Htemperature & Hmax).
    exists params.
    repeat split;
      [ exact Hcalls | apply Hmodel | apply Htemperature | apply Hmax ];
      reflexivity.
  - destruct (proj2 absent_fields_take_defaults
                (Scenario.answering Scenario.hi_there) Scenario.once_upon)
      as (params & Hcalls & Hmodel & Htemperature & Hmax).
    exists params.
    repeat split;
      [ exact Hcalls | apply Hmodel | apply Htemperature | apply Hmax ];
      reflexivity.
Defined.

(** C3: a temperature of 0 in the input is falsy, so [||] replaces it: the
    provider call of chat, and of completion, carries the temperature 0.7
    and not 0. *)
Theorem zero_temperature_replaced :
  (forall (this : Service.OpenAIService) (input : Types.ChatInput.t),
      Types.ChatInput.temperature input = Some 0%float ->
      exists params,
        provider_calls (trace_of (Service.chat this input))
        = [ChatCompletionsCreate params]
        /\ Provider.ChatCompletionCreateParams.temperature params = 0.7%float
        /\ Provider.ChatCompletionCreateParams.temperature params <> 0%float)
  /\
  (forall (this : Service.OpenAIService) (input : Types.CompletionInput.t),
      Types.CompletionInput.temperature input = Some 0%float ->
      exists params,
        provider_calls (trace_of (Service.completion this input))
        = [CompletionsCreate params]
        /\ Provider.CompletionCreateParams.temperature params = 0.7%float
        /\ Provider.CompletionCreateParams.temperature params <> 0%float).
Proof.
  split; intros this input Hzero.
  - exists (Service.chat_params input).
    split; [apply chat_calls_once | ].
    cbn. rewrite Hzero. cbn.
    split; [reflexivity | apply default_temperature_not_zero].
  - exists (Service.completion_params input).
    split; [apply completion_calls_once | ].
    cbn. rewrite Hzero. cbn.
    split; [reflexivity | apply default_temperature_not_zero].
Qed.

Lemma zero_temperature_replaced_witness :
  Types.ChatInput.temperature Scenario.hello_cold = Some 0%float
  /\ Types.CompletionInput.temperature Scenario.once_upon_cold = Some 0%float
  /\ (exists params,
         provider_calls
           (trace_of (Service.chat (Scenario.answering Scenario.hi_there)
                        Scenario.hello_cold))
         = [ChatCompletionsCreate params]
         /\ Provider.ChatCompletionCreateParams.temperature params
            = 0.7%float)
  /\ (exists params,
         provider_calls
           (trace_of (Service.completion
                        (Scenario.answering Scenario.hi_there)
                        Scenario.once_upon_cold))
         = [CompletionsCreate params]
         /\ Provider.CompletionCreateParams.temperature params = 0.7%float).
Proof.
  split; [reflexivity | split; [reflexivity | split]].
  - destruct (proj1 zero_temperature_replaced
                (Scenario.answering Scenario.hi_there) Scenario.hello_cold
                eq_refl)
      as (params & Hcalls & Htemperature & _).
    exists params. split; assumption.
  - destruct (proj2 zero_temperature_replaced
                (Scenario.answering Scenario.hi_there) Scenario.once_upon_cold
                eq_refl)
      as (params & Hcalls & Htemperature & _).
    exists params. split; assumption.
Defined.

(** ** Empty and absent completion text *)

(** C4: when the provider answers a completion call and the text of its
    first choice is the empty string, the operation succeeds and the text
    of the result is the empty string; and on any provider answer the
    operation fails exactly when that text is absent (no first choice, or a
    first choice without text). *)
Theorem completion_empty_text_succeeds :
  forall (this : Service.OpenAIService) (input : Types.CompletionInput.t)
         (response : Provider.Completion.t),
    Service.completions_create (Service.client this)
      (Service.completion_params input) = Returned response ->
    (forall choice rest,
        Provider.Completion.choices response = choice :: rest ->
        Provider.CompletionChoice.text choice = Some EmptyString ->
        exists result,
          result_of (Service.completion this input) = Returned result
          /\ Types.CompletionResponse.text result = EmptyString)
    /\ ((exists e, result_of (Service.completion this input) = Thrown e)
        <-> Js.first_field (Provider.Completion.choices response)
              Provider.CompletionChoice.text = None).
Proof.
  intros this input response Hcall.
  rewrite (completion_resolved _ _ _ Hcall).
  split.
  - intros choice rest Hchoices Htext.
    rewrite Hchoices, first_field_cons, Htext.
    eexists. split; reflexivity.
  - destruct (Js.first_field _ _) as [text | ]; cbn; split.
    + intros [e He]. discriminate He.
    + intros H. discriminate H.
    + reflexivity.
    + intros _. eexists. reflexivity.
Qed.

Lemma completion_empty_text_succeeds_witness :
  exists result,
    result_of (Service.completion (Scenario.answering Scenario.hi_there)
                 Scenario.once_upon)
    = Returned result
    /\ Types.CompletionResponse.text result = EmptyString.
Proof.
  apply (proj1 (completion_empty_text_succeeds
                  (Scenario.answering Scenario.hi_there) Scenario.once_upon
                  Scenario.empty_text eq_refl)
           {| Provider.CompletionChoice.text := Some EmptyString |} []);
    reflexivity.
Defined.

(** ** Failures of the provider call *)

(** C5: when the provider call of an operation fails, the operation fails
    with an error whose message is the prefix of that operation followed by
    the message of the underlying error, or by "Unknown error" when the
    value thrown is not an error and so has no message; the provider was
    called once, so nothing was retried. *)
Theorem provider_failure_wrapped :
  forall (this : Service.OpenAIService) (e : Js.thrown),
    let underlying :=
      match e with
      | Js.Error message => message
      | Js.NonError _ => "Unknown error"
      end in
    (forall input,
        Service.chat_completions_create (Service.client this)
          (Service.chat_params input) = Thrown e ->
        result_of (Service.chat this input)
        = Thrown (Js.Error
                    ("Failed to generate chat response: " ++ underlying)%string)
        /\ length (provider_calls (trace_of (Service.chat this input)))
           = 1%nat)
    /\ (forall input,
           Service.completions_create (Service.client this)
             (Service.completion_params input) = Thrown e ->
           result_of (Service.completion this input)
           = Thrown (Js.Error
                       ("Failed to generate completion: " ++ underlying)%string)
           /\ length (provider_calls
                        (trace_of (Service.completion this input)))
              = 1%nat)
    /\ (Service.models_list (Service.client this) = Thrown e ->
        result_of (Service.getModels this)
        = Thrown (Js.Error ("Failed to fetch models: " ++ underlying)%string)
        /\ length (provider_calls (trace_of (Service.getModels this)))
           = 1%nat).
Proof.
  intros this e underlying.
  assert (Hmessage : Js.message_or_unknown e = underlying) by reflexivity.
  split; [ | split].
  - intros input Hcall. split.
    + rewrite (chat_rejected _ _ _ Hcall), <- Hmessage. reflexivity.
    + rewrite chat_calls_once. reflexivity.
  - intros input Hcall. split.
    + rewrite (completion_rejected _ _ _ Hcall), <- Hmessage. reflexivity.
    + rewrite completion_calls_once. reflexivity.
  - intros Hcall. split.
    + rewrite (getModels_rejected _ _ Hcall), <- Hmessage. reflexivity.
    + rewrite getModels_calls_once. reflexivity.
Qed.

Lemma provider_failure_wrapped_witness :
  result_of (Service.chat (Scenario.rejecting Scenario.unauthorized)
               Scenario.hello)
  = Thrown (Js.Error
              "Failed to generate chat response: 401 Incorrect API key")
  /\ result_of (Service.completion
                  (Scenario.rejecting (Js.NonError "timeout"))
                  Scenario.once_upon)
     = Thrown (Js.Error "Failed to generate completion: Unknown error")
  /\ result_of (Service.getModels (Scenario.rejecting Scenario.unauthorized))
     = Thrown (Js.Error "Failed to fetch models: 401 Incorrect API key").
Proof.
  split; [ | split].
  - apply (proj1 (provider_failure_wrapped
                    (Scenario.rejecting Scenario.unauthorized)
                    Scenario.unauthorized) Scenario.hello eq_refl).
  - apply (proj1 (proj2 (provider_failure_wrapped
                           (Scenario.rejecting (Js.NonError "timeout"))
                           (Js.NonError "timeout")))
             Scenario.once_upon eq_refl).
  - apply (proj2 (proj2 (provider_failure_wrapped
                           (Scenario.rejecting Scenario.unauthorized)
                           Scenario.unauthorized)) eq_refl).
Defined.

(** ** Token usage *)

(** C6: when the provider answers a chat call with a message, or a
    completion call with a text, the usage of the result carries the
    prompt_tokens, completion_tokens and total_tokens of the answer under
    the names promptTokens, completionTokens and totalTokens, unchanged;
    when the answer has no usage the result has none. *)
Theorem usage_renamed :
  let renamed (usage : option Provider.CompletionUsage.t) :=
    match usage with
    | Some u =>
        Some {| Types.Usage.promptTokens :=
                  Provider.CompletionUsage.prompt_tokens u;
                Types.Usage.completionTokens :=
                  Provider.CompletionUsage.completion_tokens u;
                Types.Usage.totalTokens :=
                  Provider.CompletionUsage.total_tokens u |}
    | None => None
    end in
  (forall this input response message,
      Service.chat_completions_create (Service.client this)
        (Service.chat_params input) = Returned response ->
      Js.first_field (Provider.ChatCompletion.choices response)
        Provider.ChatChoice.message = Some message ->
      exists result,
        result_of (Service.chat this input) = Returned result
        /\ Types.ChatResponse.usage result
           = renamed (Provider.ChatCompletion.usage response))
  /\
  (forall this input response text,
      Service.completions_create (Service.client this)
        (Service.completion_params input) = Returned response ->
      Js.first_field (Provider.Completion.choices response)
        Provider.CompletionChoice.text = Some text ->
      exists result,
        result_of (Service.completion this input) = Returned result
        /\ Types.CompletionResponse.usage result
           = renamed (Provider.Completion.usage response)).
Proof.
  intros renamed. split.
  - intros this input response message Hcall Hfirst.
    rewrite (chat_resolved _ _ _ Hcall), Hfirst.
    eexists. split; reflexivity.
  - intros this input response text Hcall Hfirst.
    rewrite (completion_resolved _ _ _ Hcall), Hfirst.
    eexists. split; reflexivity.
Qed.

Lemma usage_renamed_witness :
  exists result,
    result_of (Service.chat (Scenario.answering Scenario.hi_there)
                 Scenario.hello)
    = Returned result
    /\ Types.ChatResponse.usage result
       = Some {| Types.Usage.promptTokens := 5;
                 Types.Usage.completionTokens := 3;
                 Types.Usage.totalTokens := 8 |}.
Proof.
  apply (proj1 usage_renamed (Scenario.answering Scenario.hi_there)
           Scenario.hello Scenario.hi_there
           {| Provider.ChatCompletionMessage.role := "assistant";
              Provider.ChatCompletionMessage.content := Some "Hi there" |}
           eq_refl eq_refl).
Defined.

(** ** The edge handler *)

(** Quotation marks, reverse solidi and control characters of a message are
    escaped in the JSON text; other characters are kept. *)
Lemma quote_escapes :
  Json.quote (String Json.quotation_mark
                (String Json.reverse_solidus
                   (String (ascii_of_nat 10) (String (ascii_of_nat 1) "ok"))))
  = Scenario.in_quotes
      (String Json.reverse_solidus
         (String Json.quotation_mark
            (String Json.reverse_solidus
               (String Json.reverse_solidus
                  (String Json.reverse_solidus "n"
                   ++ String Json.reverse_solidus "u0001ok")))))%string.
Proof. reflexivity. Qed.

Section Handler.

Variable new_OpenAI : string -> outcome Service.OpenAI.
Variable createYoga : Worker.YogaServerOptions -> outcome Worker.YogaServer.

Lemma fetch_preflight (request : Http.Request.t) (env : Types.Env.t)
    (ctx : unit) :
  Http.Request.method request = "OPTIONS" ->
  Worker.fetch new_OpenAI createYoga request env ctx
  = (Returned (Http.new_Response None 204 Worker.corsHeaders), []).
Proof.
  intros Hmethod. unfold Worker.fetch. rewrite Hmethod. reflexivity.
Qed.

(** [fetch] when the construction of the adapter throws. *)
Lemma fetch_construction_failed (request : Http.Request.t)
    (env : Types.Env.t) (ctx : unit) (e : Js.thrown) :
  Http.Request.method request <> "OPTIONS" ->
  result_of (Service.createOpenAIService new_OpenAI env) = Thrown e ->
  result_of (Worker.fetch new_OpenAI createYoga request env ctx)
  = Returned
      (Http.new_Response (Some (Worker.error_body e)) 500
         (Http.Object_spread [("Content-Type", "application/json")]
            Worker.corsHeaders)).
Proof.
  intros Hmethod Hthrown.
  unfold Worker.fetch.
  apply String.eqb_neq in Hmethod. rewrite Hmethod.
  destruct (Service.createOpenAIService new_OpenAI env) as [o t].
  unfold result_of in Hthrown. cbn in Hthrown. subst o.
  reflexivity.
Qed.

Lemma construction_without_key (env : Types.Env.t) :
  Types.Env.OPENAI_API_KEY env = None
  \/ Types.Env.OPENAI_API_KEY env = Some EmptyString ->
  Service.createOpenAIService new_OpenAI env
  = (Thrown (Js.Error "OPENAI_API_KEY is not configured"), []).
Proof.
  unfold Service.createOpenAIService.
  intros [Hkey | Hkey]; rewrite Hkey; reflexivity.
Qed.

(** [fetch] hands [createYoga] the flag computed from the environment. *)
Lemma fetch_creates_yoga (request : Http.Request.t) (env : Types.Env.t)
    (ctx : unit) (apiKey : string) (c : Service.OpenAI) :
  Http.Request.method request <> "OPTIONS" ->
  Types.Env.OPENAI_API_KEY env = Some apiKey ->
  Js.truthy_string apiKey = true ->
  new_OpenAI apiKey = Returned c ->
  exists rest,
    trace_of (Worker.fetch new_OpenAI createYoga request env ctx)
    = NewOpenAI apiKey :: CreateYoga (Worker.graphiql_enabled env) :: rest.
Proof.
  intros Hmethod Hkey Htruthy Hnew.
  unfold Worker.fetch.
  apply String.eqb_neq in Hmethod. rewrite Hmethod.
  unfold Service.createOpenAIService, Service.new_OpenAIService.
  rewrite Hkey, Htruthy.
  unfold Worker.call_createYoga, Worker.await_yoga_fetch.
  unfold bind, try_catch, emit, lift, console_error, ret, trace_of.
  rewrite Hnew. cbn.
  destruct (createYoga _) as [yoga | e]; cbn.
  - destruct (Worker.handle yoga request _) as [[response | e] t]; cbn;
      eexists; reflexivity.
  - eexists; reflexivity.
Qed.

End Handler.

(** C7: a request whose method is OPTIONS gets a response with status 204,
    no body and the three cross-origin headers; the trace of the handler is
    empty, so neither the adapter nor the GraphQL server was built and no
    resolver ran.  The environment is arbitrary: a missing credential
    changes nothing. *)
Theorem preflight_short_circuits :
  forall (new_OpenAI : string -> outcome Service.OpenAI)
         (createYoga : Worker.YogaServerOptions -> outcome Worker.YogaServer)
         (request : Http.Request.t) (env : Types.Env.t) (ctx : unit),
    Http.Request.method request = "OPTIONS" ->
    exists response,
      Worker.fetch new_OpenAI createYoga request env ctx
      = (Returned response, [])
      /\ Http.Response.status response = 204
      /\ Http.Response.body response = None
      /\ carries_cors response.
Proof.
  intros new_OpenAI createYoga request env ctx Hmethod.
  rewrite (fetch_preflight _ _ _ _ _ Hmethod).
  eexists. split; [reflexivity | ].
  repeat split; reflexivity.
Qed.

Lemma preflight_short_circuits_witness :
  Types.Env.OPENAI_API_KEY Scenario.unconfigured = None
  /\ exists response,
       Worker.fetch Scenario.new_OpenAI Scenario.createYoga
         (Scenario.request "OPTIONS") Scenario.unconfigured tt
       = (Returned response, [])
       /\ Http.Response.status response = 204
       /\ Http.Response.body response = None
       /\ carries_cors response.
Proof.
  split; [reflexivity | ].
  apply (preflight_short_circuits Scenario.new_OpenAI Scenario.createYoga
           (Scenario.request "OPTIONS") Scenario.unconfigured tt).
  reflexivity.
Defined.

(** C8: on a request other than a preflight, when the construction of the
    adapter throws an error, the handler returns a response with status 500
    whose body is the JSON text of the object with the two members error,
    "Internal Server Error", and message, the message of that error, and
    which carries the three cross-origin headers.  A credential that is
    absent or empty makes the construction throw, with the message
    "OPENAI_API_KEY is not configured". *)
Theorem construction_failure_is_500 :
  forall (new_OpenAI : string -> outcome Service.OpenAI)
         (createYoga : Worker.YogaServerOptions -> outcome Worker.YogaServer)
         (request : Http.Request.t) (env : Types.Env.t) (ctx : unit),
    Http.Request.method request <> "OPTIONS" ->
    (forall message,
        result_of (Service.createOpenAIService new_OpenAI env)
        = Thrown (Js.Error message) ->
        exists response,
          result_of (Worker.fetch new_OpenAI createYoga request env ctx)
          = Returned response
          /\ Http.Response.status response = 500
          /\ Http.Response.body response
             = Some (Json.stringify [ ("error", "Internal Server Error");
                                      ("message", message) ])
          /\ Http.Headers_get "Content-Type" (Http.Response.headers response)
             = Some "application/json"
          /\ carries_cors response)
    /\ (Types.Env.OPENAI_API_KEY env = None
        \/ Types.Env.OPENAI_API_KEY env = Some EmptyString ->
        result_of (Service.createOpenAIService new_OpenAI env)
        = Thrown (Js.Error "OPENAI_API_KEY is not configured")
        /\ exists response,
             result_of (Worker.fetch new_OpenAI createYoga request env ctx)
             = Returned response
             /\ Http.Response.status response = 500
             /\ Http.Response.body response
                = Some Scenario.not_configured_body
             /\ carries_cors response).
Proof.
  intros new_OpenAI createYoga request env ctx Hmethod.
  split.
  - intros message Hthrown.
    rewrite (fetch_construction_failed _ _ _ _ _ _ Hmethod Hthrown).
    eexists. split; [reflexivity | ].
    repeat split; reflexivity.
  - intros Hkey.
    pose proof (construction_without_key new_OpenAI env Hkey) as Hthrown.
    split; [rewrite Hthrown; reflexivity | ].
    rewrite (fetch_construction_failed _ _ _ _ ctx
               (Js.Error "OPENAI_API_KEY is not configured") Hmethod).
    + eexists. split; [reflexivity | ].
      repeat split; reflexivity.
    + rewrite Hthrown. reflexivity.
Qed.

Lemma construction_failure_is_500_witness :
  Http.Request.method (Scenario.request "POST") <> "OPTIONS"
  /\ exists response,
       result_of (Worker.fetch Scenario.new_OpenAI Scenario.createYoga
                    (Scenario.request "POST") Scenario.unconfigured tt)
       = Returned response
       /\ Http.Response.status response = 500
       /\ Http.Response.body response = Some Scenario.not_configured_body
       /\ carries_cors response.
Proof.
  assert (Hmethod : Http.Request.method (Scenario.request "POST")
                    <> "OPTIONS") by (cbn; discriminate).
  split; [exact Hmethod | ].
  apply (proj2 (construction_failure_is_500 Scenario.new_OpenAI
                  Scenario.createYoga (Scenario.request "POST")
                  Scenario.unconfigured tt Hmethod)).
  left. reflexivity.
Defined.

(** ** The interactive console *)

(** C10, as stated, fails: with an ENVIRONMENT marker that is present and
    empty the console is enabled, although the marker neither equals
    "development" nor is absent. *)
Lemma graphiql_enabled_on_blank_marker :
  Worker.graphiql_enabled Scenario.blank_marker = true
  /\ Types.Env.ENVIRONMENT Scenario.blank_marker <> Some "development"
  /\ Types.Env.ENVIRONMENT Scenario.blank_marker <> None.
Proof.
  repeat split; cbn; discriminate.
Qed.

(** C10, amended: the console flag given to the GraphQL server is set
    exactly when the ENVIRONMENT marker equals "development", is absent, or
    is the empty string; so an absent marker leaves the console enabled and
    any other non-empty marker disables it. *)
Theorem graphiql_enabled_iff :
  forall (env : Types.Env.t) (openai : Service.OpenAIService),
    (Worker.graphiql (Worker.yoga_options env openai) = true
     <-> Types.Env.ENVIRONMENT env = Some "development"
         \/ Types.Env.ENVIRONMENT env = None
         \/ Types.Env.ENVIRONMENT env = Some EmptyString)
    /\ (Types.Env.ENVIRONMENT env = None ->
        Worker.graphiql (Worker.yoga_options env openai) = true)
    /\ (forall marker,
           Types.Env.ENVIRONMENT env = Some marker ->
           marker <> EmptyString ->
           marker <> "development" ->
           Worker.graphiql (Worker.yoga_options env openai) = false).
Proof.
  intros env openai. cbn. unfold Worker.graphiql_enabled.
  destruct (Types.Env.ENVIRONMENT env) as [marker | ]; cbn.
  - destruct (String.eqb_spec marker "development") as [Hdev | Hdev]; cbn.
    + split; [ | split].
      * split; [intros _; left; congruence | reflexivity].
      * discriminate.
      * intros m Hm _ Hnot. congruence.
    + destruct marker as [ | c rest]; cbn.
      * split; [ | split].
        -- split; [intros _; right; right; reflexivity | reflexivity].
        -- discriminate.
        -- intros m Hm Hnot _. congruence.
      * split; [ | split].
        -- split; [discriminate | ].
           intros [H | [H | H]]; [congruence | discriminate | discriminate].
        -- discriminate.
        -- reflexivity.
  - split; [ | split].
    + split; [intros _; right; left; reflexivity | reflexivity].
    + reflexivity.
    + discriminate.
Qed.

Lemma graphiql_enabled_iff_witness :
  Worker.graphiql
    (Worker.yoga_options Scenario.unconfigured
       (Scenario.answering Scenario.hi_there)) = true
  /\ Worker.graphiql
       (Worker.yoga_options Scenario.production
          (Scenario.answering Scenario.hi_there)) = false.
Proof.
  split.
  - apply (proj1 (proj2 (graphiql_enabled_iff Scenario.unconfigured
                           (Scenario.answering Scenario.hi_there)))).
    reflexivity.
  - apply (proj2 (proj2 (graphiql_enabled_iff Scenario.production
                           (Scenario.answering Scenario.hi_there)))
             "production"); [reflexivity | discriminate | discriminate].
Defined.

(** * Further properties of the adapter *)

Lemma getModels_resolved (this : Service.OpenAIService)
    (page : Provider.ModelsPage.t) :
  Service.models_list (Service.client this) = Returned page ->
  Service.getModels this =
  (Returned
     (map (fun model =>
             {| Types.Model.id := Provider.Model.id model;
                Types.Model.object := Provider.Model.object model;
                Types.Model.created := Provider.Model.created model;
                Types.Model.ownedBy := Provider.Model.owned_by model |})
          (Provider.ModelsPage.data page)),
   [ModelsList]).
Proof.
  intros Hcall.
  unfold Service.getModels, Service.await_models_list.
  unfold bind, try_catch, emit, lift, console_error.
  rewrite Hcall. reflexivity.
Qed.

(** Each operation ends in one of two ways: it returns after its single
    provider call, or it throws the wrapped form of a cause it has logged. *)
Lemma chat_cases (this : Service.OpenAIService) (input : Types.ChatInput.t) :
  (exists result,
      Service.chat this input
      = (Returned result, [ChatCompletionsCreate (Service.chat_params input)]))
  \/ (exists cause,
         Service.chat this input
         = (Thrown (Js.Error ("Failed to generate chat response: "
                              ++ Js.message_or_unknown cause)%string),
            [ ChatCompletionsCreate (Service.chat_params input);
              ConsoleError "OpenAI Chat Error:" cause ])).
Proof.
  destruct (Service.chat_completions_create (Service.client this)
              (Service.chat_params input)) as [response | e] eqn:Hcall.
  - rewrite (chat_resolved _ _ _ Hcall).
    destruct (Js.first_field _ _) as [message | ].
    + left. eexists. reflexivity.
    + right. exists (Js.Error "No message in response"). reflexivity.
  - right. exists e. apply chat_rejected, Hcall.
Qed.

Lemma completion_cases (this : Service.OpenAIService)
    (input : Types.CompletionInput.t) :
  (exists result,
      Service.completion this input
      = (Returned result,
         [CompletionsCreate (Service.completion_params input)]))
  \/ (exists cause,
         Service.completion this input
         = (Thrown (Js.Error ("Failed to generate completion: "
                              ++ Js.message_or_unknown cause)%string),
            [ CompletionsCreate (Service.completion_params input);
              ConsoleError "OpenAI Completion Error:" cause ])).
Proof.
  destruct (Service.completions_create (Service.client this)
              (Service.completion_params input)) as [response | e] eqn:Hcall.
  - rewrite (completion_resolved _ _ _ Hcall).
    destruct (Js.first_field _ _) as [text | ].
    + left. eexists. reflexivity.
    + right. exists (Js.Error "No text in response"). reflexivity.
  - right. exists e. apply completion_rejected, Hcall.
Qed.

Lemma getModels_cases (this : Service.OpenAIService) :
  (exists result, Service.getModels this = (Returned result, [ModelsList]))
  \/ (exists cause,
         Service.getModels this
         = (Thrown (Js.Error ("Failed to fetch models: "
                              ++ Js.message_or_unknown cause)%string),
            [ ModelsList; ConsoleError "OpenAI Models Error:" cause ])).
Proof.
  destruct (Service.models_list (Service.client this)) as [page | e] eqn:Hcall.
  - left. eexists. apply getModels_resolved, Hcall.
  - right. exists e. apply getModels_rejected, Hcall.
Qed.

Lemma prefix_of_append (p s : string) : String.prefix p (p ++ s) = true.
Proof.
  induction p as [ | a p IH]; cbn.
  - destruct s; reflexivity.
  - destruct (ascii_dec a a) as [_ | Hneq]; [exact IH | contradiction].
Qed.

(** X1: when the provider answers a chat call with a message in its first
    choice, the operation returns; the role of the result is the role of
    that message; its content is the content of that message when there is
    one and it is not empty, and the empty string when the provider left it
    out; its model is the one the provider reports. *)
Theorem chat_maps_first_message :
  forall (this : Service.OpenAIService) (input : Types.ChatInput.t)
         (response : Provider.ChatCompletion.t)
         (message : Provider.ChatCompletionMessage.t),
    Service.chat_completions_create (Service.client this)
      (Service.chat_params input) = Returned response ->
    Js.first_field (Provider.ChatCompletion.choices response)
      Provider.ChatChoice.message = Some message ->
    exists result,
      result_of (Service.chat this input) = Returned result
      /\ Types.ChatMessage.role (Types.ChatResponse.message result)
         = Provider.ChatCompletionMessage.role message
      /\ (forall text,
             Provider.ChatCompletionMessage.content message = Some text ->
             text <> EmptyString ->
             Types.ChatMessage.content (Types.ChatResponse.message result)
             = text)
      /\ (Provider.ChatCompletionMessage.content message = None ->
          Types.ChatMessage.content (Types.ChatResponse.message result)
          = EmptyString)
      /\ Types.ChatResponse.model result
         = Provider.ChatCompletion.model response.
Proof.
  intros this input response message Hcall Hfirst.
  rewrite (chat_resolved _ _ _ Hcall), Hfirst.
  eexists. split; [reflexivity | ]. cbn.
  repeat split.
  - intros text Hcontent Hnonempty. rewrite Hcontent.
    destruct text; [contradiction | reflexivity].
  - intros Hcontent. rewrite Hcontent. reflexivity.
Qed.

Lemma chat_maps_first_message_witness :
  exists result,
    result_of (Service.chat
                 (Edge.provider Edge.silent Edge.no_text Edge.two_models)
                 Edge.warm)
    = Returned result
    /\ Types.ChatMessage.role (Types.ChatResponse.message result)
       = "assistant"
    /\ Types.ChatMessage.content (Types.ChatResponse.message result)
       = EmptyString
    /\ Types.ChatResponse.model result = "gpt-4-0613".
Proof.
  destruct (chat_maps_first_message
              (Edge.provider Edge.silent Edge.no_text Edge.two_models)
              Edge.warm Edge.silent
              {| Provider.ChatCompletionMessage.role := "assistant";
                 Provider.ChatCompletionMessage.content := None |}
              eq_refl eq_refl)
    as (result & Hresult & Hrole & _ & Hcontent & Hmodel).
  exists result.
  repeat split;
    [ exact Hresult | exact Hrole | apply Hcontent; reflexivity
    | exact Hmodel ].
Defined.

(** X2: fields given in the input and truthy go to the provider as they
    are: a non-empty model, a temperature that is neither zero nor NaN, a
    maxTokens other than 0 (a negative one included); the messages of a chat
    input and the prompt of a completion input are passed on in every
    case. *)
Theorem given_fields_forwarded :
  (forall (this : Service.OpenAIService) (input : Types.ChatInput.t),
      exists params,
        provider_calls (trace_of (Service.chat this input))
        = [ChatCompletionsCreate params]
        /\ Provider.ChatCompletionCreateParams.messages params
           = Types.ChatInput.messages input
        /\ (forall model,
               Types.ChatInput.model input = Some model ->
               model <> EmptyString ->
               Provider.ChatCompletionCreateParams.model params = model)
        /\ (forall temperature,
               Types.ChatInput.temperature input = Some temperature ->
               Js.truthy_number temperature = true ->
               Provider.ChatCompletionCreateParams.temperature params
               = temperature)
        /\ (forall maxTokens,
               Types.ChatInput.maxTokens input = Some maxTokens ->
               maxTokens <> 0 ->
               Provider.ChatCompletionCreateParams.max_tokens params
               = maxTokens))
  /\
  (forall (this : Service.OpenAIService) (input : Types.CompletionInput.t),
      exists params,
        provider_calls (trace_of (Service.completion this input))
        = [CompletionsCreate params]
        /\ Provider.CompletionCreateParams.prompt params
           = Types.CompletionInput.prompt input
        /\ (forall model,
               Types.CompletionInput.model input = Some model ->
               model <> EmptyString ->
               Provider.CompletionCreateParams.model params = model)
        /\ (forall temperature,
               Types.CompletionInput.temperature input = Some temperature ->
               Js.truthy_number temperature = true ->
               Provider.CompletionCreateParams.temperature params
               = temperature)
        /\ (forall maxTokens,
               Types.CompletionInput.maxTokens input = Some maxTokens ->
               maxTokens <> 0 ->
               Provider.CompletionCreateParams.max_tokens params
               = maxTokens)).
Proof.
  split; intros this input.
  - exists (Service.chat_params input).
    split; [apply chat_calls_once | ].
    split; [reflexivity | ].
    split; [ | split].
    + intros model Hmodel Hnonempty. cbn. rewrite Hmodel.
      destruct model; [contradiction | reflexivity].
    + intros temperature Htemperature Htruthy. cbn.
      rewrite Htemperature. cbn. rewrite Htruthy. reflexivity.
    + intros maxTokens Hmax Hnonzero. cbn. rewrite Hmax. cbn.
      unfold Js.truthy_int.
      apply Z.eqb_neq in Hnonzero. rewrite Hnonzero. reflexivity.
  - exists (Service.completion_params input).
    split; [apply completion_calls_once | ].
    split; [reflexivity | ].
    split; [ | split].
    + intros model Hmodel Hnonempty. cbn. rewrite Hmodel.
      destruct model; [contradiction | reflexivity].
    + intros temperature Htemperature Htruthy. cbn.
      rewrite Htemperature. cbn. rewrite Htruthy. reflexivity.
    + intros maxTokens Hmax Hnonzero. cbn. rewrite Hmax. cbn.
      unfold Js.truthy_int.
      apply Z.eqb_neq in Hnonzero. rewrite Hnonzero. reflexivity.
Qed.

Lemma given_fields_forwarded_witness :
  exists params,
    provider_calls
      (trace_of (Service.chat
                   (Edge.provider Edge.silent Edge.no_text Edge.two_models)
                   Edge.warm))
    = [ChatCompletionsCreate params]
    /\ Provider.ChatCompletionCreateParams.messages params = []
    /\ Provider.ChatCompletionCreateParams.model params = "gpt-4"
    /\ Provider.ChatCompletionCreateParams.temperature params = 1.5%float
    /\ Provider.ChatCompletionCreateParams.max_tokens params = -5.
Proof.
  destruct (proj1 given_fields_forwarded
              (Edge.provider Edge.silent Edge.no_text Edge.two_models)
              Edge.warm)
    as (params & Hcalls & Hmessages & Hmodel & Htemperature & Hmax).
  exists params.
  split; [exact Hcalls | ].
  split; [exact Hmessages | ].
  split; [apply Hmodel; [reflexivity | discriminate] | ].
  split; [apply Htemperature; reflexivity | ].
  apply Hmax; [reflexivity | discriminate].
Defined.

(** X3: whatever the input, the request sent to the provider has a
    non-empty model, a temperature that is neither zero nor NaN and a
    max_tokens other than 0: a falsy value never reaches the provider, for
    chat and for completion. *)
Theorem falsy_never_sent :
  (forall (this : Service.OpenAIService) (input : Types.ChatInput.t),
      exists params,
        provider_calls (trace_of (Service.chat this input))
        = [ChatCompletionsCreate params]
        /\ Provider.ChatCompletionCreateParams.model params <> EmptyString
        /\ Js.truthy_number
             (Provider.ChatCompletionCreateParams.temperature params) = true
        /\ Provider.ChatCompletionCreateParams.max_tokens params <> 0)
  /\
  (forall (this : Service.OpenAIService) (input : Types.CompletionInput.t),
      exists params,
        provider_calls (trace_of (Service.completion this input))
        = [CompletionsCreate params]
        /\ Provider.CompletionCreateParams.model params <> EmptyString
        /\ Js.truthy_number
             (Provider.CompletionCreateParams.temperature params) = true
        /\ Provider.CompletionCreateParams.max_tokens params <> 0).
Proof.
  assert (Hstring : forall x d, d <> EmptyString ->
                                Js.or_string x d <> EmptyString).
  { intros [[ | c s] | ] d Hd; cbn; [exact Hd | discriminate | exact Hd]. }
  assert (Hnumber : forall x, Js.truthy_number
                                (Js.or_number x Service.default_temperature)
                              = true).
  { intros [v | ]; cbn; [ | reflexivity].
    destruct (Js.truthy_number v) eqn:Hv; [exact Hv | reflexivity]. }
  assert (Hint : forall x, Js.or_int x Service.default_maxTokens <> 0).
  { intros [n | ]; cbn; [ | discriminate].
    unfold Js.truthy_int.
    destruct (n =? 0) eqn:Hn; cbn; [discriminate | ].
    apply Z.eqb_neq, Hn. }
  split; intros this input.
  - exists (Service.chat_params input).
    split; [apply chat_calls_once | ]. cbn.
    split; [apply Hstring; discriminate | ].
    split; [apply Hnumber | apply Hint].
  - exists (Service.completion_params input).
    split; [apply completion_calls_once | ]. cbn.
    split; [apply Hstring; discriminate | ].
    split; [apply Hnumber | apply Hint].
Qed.

(** ** Completion answers *)

(** X4: when the provider answers a completion call with no choices, or
    with a first choice that has no text, the operation fails with the
    message "Failed to generate completion: No text in response", after
    logging the bare error. *)
Theorem completion_no_text_wrapped :
  forall (this : Service.OpenAIService) (input : Types.CompletionInput.t)
         (response : Provider.Completion.t),
    Service.completions_create (Service.client this)
      (Service.completion_params input) = Returned response ->
    (Provider.Completion.choices response = []
     \/ exists choice rest,
          Provider.Completion.choices response = choice :: rest
          /\ Provider.CompletionChoice.text choice = None) ->
    Service.completion this input
    = (Thrown (Js.Error "Failed to generate completion: No text in response"),
       [ CompletionsCreate (Service.completion_params input);
         ConsoleError "OpenAI Completion Error:"
           (Js.Error "No text in response") ]).
Proof.
  intros this input response Hcall Hnone.
  apply first_field_absent in Hnone.
  rewrite (completion_resolved _ _ _ Hcall), Hnone. reflexivity.
Qed.

Lemma completion_no_text_wrapped_witness :
  result_of (Service.completion
               (Edge.provider Edge.silent Edge.no_text Edge.two_models)
               Edge.warm_prompt)
  = Thrown (Js.Error "Failed to generate completion: No text in response").
Proof.
  rewrite (completion_no_text_wrapped
             (Edge.provider Edge.silent Edge.no_text Edge.two_models)
             Edge.warm_prompt Edge.no_text eq_refl).
  - reflexivity.
  - right. eexists. eexists. split; reflexivity.
Defined.

(** X5: when the first choice of a completion answer has a text, the
    operation returns that text unchanged, whatever the other choices hold,
    together with the model the provider reports. *)
Theorem completion_returns_first_text :
  forall (this : Service.OpenAIService) (input : Types.CompletionInput.t)
         (response : Provider.Completion.t)
         (choice : Provider.CompletionChoice.t)
         (rest : list Provider.CompletionChoice.t) (text : string),
    Service.completions_create (Service.client this)
      (Service.completion_params input) = Returned response ->
    Provider.Completion.choices response = choice :: rest ->
    Provider.CompletionChoice.text choice = Some text ->
    exists result,
      result_of (Service.completion this input) = Returned result
      /\ Types.CompletionResponse.text result = text
      /\ Types.CompletionResponse.model result
         = Provider.Completion.model response.
Proof.
  intros this input response choice rest text Hcall Hchoices Htext.
  rewrite (completion_resolved _ _ _ Hcall).
  rewrite Hchoices, first_field_cons, Htext.
  eexists. repeat split; reflexivity.
Qed.

Lemma completion_returns_first_text_witness :
  exists result,
    result_of (Service.completion
                 (Edge.provider Edge.silent Edge.the_end Edge.two_models)
                 Edge.warm_prompt)
    = Returned result
    /\ Types.CompletionResponse.text result = " The end."
    /\ Types.CompletionResponse.model result = "gpt-3.5-turbo-instruct".
Proof.
  apply (completion_returns_first_text
           (Edge.provider Edge.silent Edge.the_end Edge.two_models)
           Edge.warm_prompt Edge.the_end
           {| Provider.CompletionChoice.text := Some " The end." |}
           [ {| Provider.CompletionChoice.text := Some "unused" |} ]
           " The end." eq_refl eq_refl eq_refl).
Defined.

(** ** The list of models *)

(** X6: when the provider answers the models call, the operation returns
    one entry per model of the answer, in the same order, each with the id,
    object, created and owned_by of that model (the last under the name
    ownedBy); it calls the provider once and logs nothing. *)
Theorem getModels_maps_each_model :
  forall (this : Service.OpenAIService) (page : Provider.ModelsPage.t),
    Service.models_list (Service.client this) = Returned page ->
    exists models,
      Service.getModels this = (Returned models, [ModelsList])
      /\ length models = length (Provider.ModelsPage.data page)
      /\ forall (i : nat) (model : Provider.Model.t),
           nth_error (Provider.ModelsPage.data page) i = Some model ->
           nth_error models i
           = Some {| Types.Model.id := Provider.Model.id model;
                     Types.Model.object := Provider.Model.object model;
                     Types.Model.created := Provider.Model.created model;
                     Types.Model.ownedBy := Provider.Model.owned_by model |}.
Proof.
  intros this page Hcall.
  rewrite (getModels_resolved _ _ Hcall).
  eexists. split; [reflexivity | ]. split.
  - apply length_map.
  - intros i model Hnth. rewrite nth_error_map, Hnth. reflexivity.
Qed.

Lemma getModels_maps_each_model_witness :
  exists models,
    Service.getModels (Edge.provider Edge.silent Edge.no_text Edge.two_models)
    = (Returned models, [ModelsList])
    /\ length models = 2%nat
    /\ nth_error models 1
       = Some {| Types.Model.id := "davinci-002";
                 Types.Model.object := "model";
                 Types.Model.created := 1692634301;
                 Types.Model.ownedBy := "system" |}.
Proof.
  destruct (getModels_maps_each_model
              (Edge.provider Edge.silent Edge.no_text Edge.two_models)
              Edge.two_models eq_refl)
    as (models & Hrun & Hlength & Hnth).
  exists models.
  split; [exact Hrun | ].
  split; [exact Hlength | ].
  apply (Hnth 1%nat
           {| Provider.Model.id := "davinci-002";
              Provider.Model.object := "model";
              Provider.Model.created := 1692634301;
              Provider.Model.owned_by := "system" |}).
  reflexivity.
Defined.

(** ** Logging *)

(** X7: an operation of the adapter that returns has written nothing to
    the error log; one that fails has written exactly one entry, under the
    label of the operation, and the entry is the cause whose message the
    error carries after the prefix. *)
Theorem failure_logged_once :
  forall (this : Service.OpenAIService),
    (forall input,
        let run := Service.chat this input in
        (forall result,
            result_of run = Returned result ->
            filter Edge.is_console_error (trace_of run) = [])
        /\ (forall e,
               result_of run = Thrown e ->
               exists cause,
                 filter Edge.is_console_error (trace_of run)
                 = [ConsoleError "OpenAI Chat Error:" cause]
                 /\ e = Js.Error ("Failed to generate chat response: "
                                  ++ Js.message_or_unknown cause)%string))
    /\ (forall input,
           let run := Service.completion this input in
           (forall result,
               result_of run = Returned result ->
               filter Edge.is_console_error (trace_of run) = [])
           /\ (forall e,
                  result_of run = Thrown e ->
                  exists cause,
                    filter Edge.is_console_error (trace_of run)
                    = [ConsoleError "OpenAI Completion Error:" cause]
                    /\ e = Js.Error ("Failed to generate completion: "
                                     ++ Js.message_or_unknown cause)%string))
    /\ (let run := Service.getModels this in
        (forall result,
            result_of run = Returned result ->
            filter Edge.is_console_error (trace_of run) = [])
        /\ (forall e,
               result_of run = Thrown e ->
               exists cause,
                 filter Edge.is_console_error (trace_of run)
                 = [ConsoleError "OpenAI Models Error:" cause]
                 /\ e = Js.Error ("Failed to fetch models: "
                                  ++ Js.message_or_unknown cause)%string)).
Proof.
  intros this. split; [ | split].
  - intros input run. subst run.
    destruct (chat_cases this input) as [[r Hrun] | [cause Hrun]];
      rewrite Hrun; cbn; split.
    + reflexivity.
    + intros e He. discriminate He.
    + intros result Hr. discriminate Hr.
    + intros e He. injection He as <-. exists cause. split; reflexivity.
  - intros input run. subst run.
    destruct (completion_cases this input) as [[r Hrun] | [cause Hrun]];
      rewrite Hrun; cbn; split.
    + reflexivity.
    + intros e He. discriminate He.
    + intros result Hr. discriminate Hr.
    + intros e He. injection He as <-. exists cause. split; reflexivity.
  - intros run. subst run.
    destruct (getModels_cases this) as [[r Hrun] | [cause Hrun]];
      rewrite Hrun; cbn; split.
    + reflexivity.
    + intros e He. discriminate He.
    + intros result Hr. discriminate Hr.
    + intros e He. injection He as <-. exists cause. split; reflexivity.
Qed.

Lemma failure_logged_once_witness :
  exists cause,
    filter Edge.is_console_error
      (trace_of (Service.chat (Scenario.rejecting Scenario.unauthorized)
                   Scenario.hello))
    = [ConsoleError "OpenAI Chat Error:" cause]
    /\ Js.Error "Failed to generate chat response: 401 Incorrect API key"
       = Js.Error ("Failed to generate chat response: "
                   ++ Js.message_or_unknown cause)%string.
Proof.
  apply (proj2 (proj1 (failure_logged_once
                         (Scenario.rejecting Scenario.unauthorized))
                  Scenario.hello)).
  reflexivity.
Defined.

(** ** What the resolvers hand to the execution engine *)

(** X8: a failure of the models, chat or completion resolver of the schema
    is always an error (never another thrown value) whose message starts
    with the prefix of the adapter operation behind it: the resolvers let
    the failures of the adapter through and add none of their own. *)
Theorem resolver_failures_are_prefixed :
  forall (parent : unit) (context : Resolvers.Context) (e : Js.thrown),
    (forall args,
        result_of (Worker.Mutation_chat Worker.schema parent args context)
        = Thrown e ->
        exists message,
          e = Js.Error message
          /\ String.prefix "Failed to generate chat response: " message
             = true)
    /\ (forall args,
           result_of (Worker.Mutation_completion Worker.schema parent args
                        context)
           = Thrown e ->
           exists message,
             e = Js.Error message
             /\ String.prefix "Failed to generate completion: " message
                = true)
    /\ (forall args,
           result_of (Worker.Query_models Worker.schema parent args context)
           = Thrown e ->
           exists message,
             e = Js.Error message
             /\ String.prefix "Failed to fetch models: " message = true).
Proof.
  intros parent context e. split; [ | split]; intros args; cbn.
  - unfold Resolvers.Mutation.chat.
    destruct (chat_cases (Resolvers.openai context)
                (Resolvers.Mutation.input args))
      as [[r Hrun] | [cause Hrun]]; rewrite Hrun; cbn; intros He.
    + discriminate He.
    + injection He as <-. eexists. split; [reflexivity | ].
      exact (prefix_of_append "Failed to generate chat response: "
               (Js.message_or_unknown cause)).
  - unfold Resolvers.Mutation.completion.
    destruct (completion_cases (Resolvers.openai context)
                (Resolvers.Mutation.input args))
      as [[r Hrun] | [cause Hrun]]; rewrite Hrun; cbn; intros He.
    + discriminate He.
    + injection He as <-. eexists. split; [reflexivity | ].
      exact (prefix_of_append "Failed to generate completion: "
               (Js.message_or_unknown cause)).
  - unfold Resolvers.Query.models.
    destruct (getModels_cases (Resolvers.openai context))
      as [[r Hrun] | [cause Hrun]]; rewrite Hrun; cbn; intros He.
    + discriminate He.
    + injection He as <-. eexists. split; [reflexivity | ].
      exact (prefix_of_append "Failed to fetch models: "
               (Js.message_or_unknown cause)).
Qed.

Lemma resolver_failures_are_prefixed_witness :
  exists message,
    Js.Error "Failed to fetch models: Unknown error" = Js.Error message
    /\ String.prefix "Failed to fetch models: " message = true.
Proof.
  apply (proj2 (proj2 (resolver_failures_are_prefixed tt
                         {| Resolvers.openai :=
                              Scenario.rejecting (Js.NonError "timeout") |}
                         (Js.Error "Failed to fetch models: Unknown error")))
           tt).
  reflexivity.
Defined.

(** * Further properties of the edge handler *)

(** ** Header lists *)

Lemma filter_out_then_in {A : Type} (P : A -> bool) (l : list A) :
  filter P (filter (fun x => negb (P x)) l) = [].
Proof.
  induction l as [ | x l IH]; cbn; [reflexivity | ].
  destruct (P x) eqn:HP; cbn; [exact IH | ].
  rewrite HP. exact IH.
Qed.

Lemma filter_within {A : Type} (P Q : A -> bool) (l : list A) :
  (forall x, P x = true -> Q x = true) ->
  filter P (filter Q l) = filter P l.
Proof.
  intros Himp.
  induction l as [ | x l IH]; cbn; [reflexivity | ].
  destruct (Q x) eqn:HQ; cbn.
  - rewrite IH. reflexivity.
  - destruct (P x) eqn:HP; [ | exact IH].
    apply Himp in HP. congruence.
Qed.

Lemma Headers_get_set_same (name value : string) (h : Http.Headers) :
  Http.Headers_get name (Http.Headers_set name value h) = Some value.
Proof.
  unfold Http.Headers_get, Http.Headers_set.
  rewrite filter_app, filter_out_then_in.
  cbn [filter app].
  change (Http.named name (Http.lower name, value))
    with (String.eqb (Http.lower name) (Http.lower name)).
  rewrite String.eqb_refl. reflexivity.
Qed.

Lemma Headers_get_set_other (name other value : string) (h : Http.Headers) :
  Http.lower name <> Http.lower other ->
  Http.Headers_get name (Http.Headers_set other value h)
  = Http.Headers_get name h.
Proof.
  intros Hdiff.
  unfold Http.Headers_get, Http.Headers_set.
  rewrite filter_app. cbn [filter].
  change (Http.named name (Http.lower other, value))
    with (String.eqb (Http.lower other) (Http.lower name)).
  assert (Hneq : String.eqb (Http.lower other) (Http.lower name) = false).
  { apply String.eqb_neq. congruence. }
  rewrite Hneq, app_nil_r.
  rewrite filter_within; [reflexivity | ].
  intros [k v]. unfold Http.named. cbn [fst].
  intros Hk. apply String.eqb_eq in Hk. subst k.
  apply negb_true_iff, String.eqb_neq. exact Hdiff.
Qed.

Lemma with_cors_headers (response : Http.Response.t) :
  Http.Response.headers (Edge.with_cors response)
  = Http.Headers_set "Access-Control-Allow-Headers"
      "Content-Type, Authorization"
      (Http.Headers_set "Access-Control-Allow-Methods" "GET, POST, OPTIONS"
         (Http.Headers_set "Access-Control-Allow-Origin" "*"
            (Http.Response.headers response))).
Proof. reflexivity. Qed.

Ltac distinct_names :=
  let H := fresh in intros H; vm_compute in H; discriminate H.

(** Setting the three headers makes them readable, whatever was there. *)
Lemma with_cors_carries_cors (response : Http.Response.t) :
  carries_cors (Edge.with_cors response).
Proof.
  unfold carries_cors. rewrite with_cors_headers.
  split; [ | split].
  - rewrite Headers_get_set_other by distinct_names.
    rewrite Headers_get_set_other by distinct_names.
    apply Headers_get_set_same.
  - rewrite Headers_get_set_other by distinct_names.
    apply Headers_get_set_same.
  - apply Headers_get_set_same.
Qed.

Lemma with_cors_keeps_other (response : Http.Response.t) (name : string) :
  Edge.not_cors_name name ->
  Http.Headers_get name (Http.Response.headers (Edge.with_cors response))
  = Http.Headers_get name (Http.Response.headers response).
Proof.
  intros (Horigin & Hmethods & Hheaders).
  rewrite with_cors_headers.
  rewrite !Headers_get_set_other; [reflexivity | | | ]; assumption.
Qed.

Lemma catch_all_shape (e : Js.thrown) :
  Http.Response.status (Edge.catch_all e) = 500
  /\ Http.Response.body (Edge.catch_all e)
     = Some (Json.stringify [ ("error", "Internal Server Error");
                              ("message", Js.message_or_unknown e) ])
  /\ Http.Headers_get "Content-Type"
       (Http.Response.headers (Edge.catch_all e))
     = Some "application/json"
  /\ carries_cors (Edge.catch_all e).
Proof. repeat split; reflexivity. Qed.

(** ** The paths through the handler *)

Section Paths.

Variable new_OpenAI : string -> outcome Service.OpenAI.
Variable createYoga : Worker.YogaServerOptions -> outcome Worker.YogaServer.

Lemma fetch_served (request : Http.Request.t) (env : Types.Env.t)
    (ctx : unit) (openai : Service.OpenAIService) (yoga : Worker.YogaServer)
    (response : Http.Response.t) :
  Http.Request.method request <> "OPTIONS" ->
  result_of (Service.createOpenAIService new_OpenAI env) = Returned openai ->
  createYoga (Worker.yoga_options env openai) = Returned yoga ->
  result_of (Worker.handle yoga request {| Resolvers.openai := openai |})
  = Returned response ->
  result_of (Worker.fetch new_OpenAI createYoga request env ctx)
  = Returned (Edge.with_cors response).
Proof.
  intros Hmethod Hservice Hyoga Hhandle.
  unfold Worker.fetch.
  apply String.eqb_neq in Hmethod. rewrite Hmethod.
  destruct (Service.createOpenAIService new_OpenAI env) as [o t0].
  unfold result_of in Hservice. cbn in Hservice. subst o.
  unfold Worker.call_createYoga, Worker.await_yoga_fetch.
  unfold bind at 1. unfold bind at 1. unfold emit, lift. rewrite Hyoga.
  unfold bind at 1. unfold bind at 1.
  destruct (Worker.handle yoga request _) as [o t1].
  unfold result_of in Hhandle. cbn in Hhandle. subst o.
  reflexivity.
Qed.

Lemma fetch_server_failed (request : Http.Request.t) (env : Types.Env.t)
    (ctx : unit) (openai : Service.OpenAIService) (e : Js.thrown) :
  Http.Request.method request <> "OPTIONS" ->
  result_of (Service.createOpenAIService new_OpenAI env) = Returned openai ->
  (createYoga (Worker.yoga_options env openai) = Thrown e
   \/ exists yoga,
        createYoga (Worker.yoga_options env openai) = Returned yoga
        /\ result_of (Worker.handle yoga request
                        {| Resolvers.openai := openai |})
           = Thrown e) ->
  result_of (Worker.fetch new_OpenAI createYoga request env ctx)
  = Returned (Edge.catch_all e).
Proof.
  intros Hmethod Hservice Hfailed.
  unfold Worker.fetch.
  apply String.eqb_neq in Hmethod. rewrite Hmethod.
  destruct (Service.createOpenAIService new_OpenAI env) as [o t0].
  unfold result_of in Hservice. cbn in Hservice. subst o.
  unfold Worker.call_createYoga, Worker.await_yoga_fetch.
  unfold bind at 1. unfold bind at 1. unfold emit, lift.
  destruct Hfailed as [Hyoga | (yoga & Hyoga & Hhandle)]; rewrite Hyoga.
  - reflexivity.
  - unfold bind at 1. unfold bind at 1.
    destruct (Worker.handle yoga request _) as [o t1].
    unfold result_of in Hhandle. cbn in Hhandle. subst o.
    reflexivity.
Qed.

(** The handler always ends with one of three responses. *)
Lemma fetch_cases (request : Http.Request.t) (env : Types.Env.t) (ctx : unit) :
  exists response,
    result_of (Worker.fetch new_OpenAI createYoga request env ctx)
    = Returned response
    /\ (response = Http.new_Response None 204 Worker.corsHeaders
        \/ (exists e, response = Edge.catch_all e)
        \/ (exists served, response = Edge.with_cors served)).
Proof.
  destruct (String.eqb_spec (Http.Request.method request) "OPTIONS")
    as [Hmethod | Hmethod].
  - rewrite (fetch_preflight _ _ _ _ _ Hmethod).
    eexists. split; [reflexivity | left; reflexivity].
  - destruct (result_of (Service.createOpenAIService new_OpenAI env))
      as [openai | e] eqn:Hservice.
    + destruct (createYoga (Worker.yoga_options env openai))
        as [yoga | e] eqn:Hyoga.
      * destruct (result_of (Worker.handle yoga request
                               {| Resolvers.openai := openai |}))
          as [served | e] eqn:Hhandle.
        -- rewrite (fetch_served _ _ ctx _ _ _ Hmethod Hservice Hyoga Hhandle).
           eexists. split; [reflexivity | ]. right. right. eexists.
           reflexivity.
        -- rewrite (fetch_server_failed _ _ ctx _ e Hmethod Hservice).
           ++ eexists. split; [reflexivity | ]. right. left. eexists.
              reflexivity.
           ++ right. exists yoga. split; assumption.
      * rewrite (fetch_server_failed _ _ ctx _ e Hmethod Hservice).
        -- eexists. split; [reflexivity | ]. right. left. eexists.
           reflexivity.
        -- left. exact Hyoga.
    + rewrite (fetch_construction_failed _ _ _ _ ctx e Hmethod Hservice).
      eexists. split; [reflexivity | ]. right. left. eexists. reflexivity.
Qed.

End Paths.

(** ** Construction of the adapter *)

(** X9: with a non-empty credential in the environment, the factory calls
    the constructor of the provider client once, with that credential as
    it is, and does nothing else; it returns a service around the client
    the constructor made, and when the constructor throws, what it threw
    comes out unchanged. *)
Theorem factory_hands_key_to_client :
  forall (new_OpenAI : string -> outcome Service.OpenAI) (env : Types.Env.t)
         (apiKey : string),
    Types.Env.OPENAI_API_KEY env = Some apiKey ->
    apiKey <> EmptyString ->
    trace_of (Service.createOpenAIService new_OpenAI env) = [NewOpenAI apiKey]
    /\ (forall c,
           new_OpenAI apiKey = Returned c ->
           result_of (Service.createOpenAIService new_OpenAI env)
           = Returned {| Service.client := c |})
    /\ (forall e,
           new_OpenAI apiKey = Thrown e ->
           result_of (Service.createOpenAIService new_OpenAI env) = Thrown e).
Proof.
  intros new_OpenAI env apiKey Hkey Hnonempty.
  unfold Service.createOpenAIService, Service.new_OpenAIService.
  rewrite Hkey.
  destruct apiKey as [ | a rest]; [contradiction | ]. cbn.
  split; [ | split].
  - destruct (new_OpenAI (String a rest)); reflexivity.
  - intros c Hnew. rewrite Hnew. reflexivity.
  - intros e Hnew. rewrite Hnew. reflexivity.
Qed.

Lemma factory_hands_key_to_client_witness :
  trace_of (Service.createOpenAIService Scenario.new_OpenAI Edge.configured)
  = [NewOpenAI "sk-test"].
Proof.
  apply (factory_hands_key_to_client Scenario.new_OpenAI Edge.configured
           "sk-test").
  - reflexivity.
  - discriminate.
Defined.

(** ** Responses of the handler *)

(** X10: the handler never rejects: for every request and environment, and
    whatever the client constructor and the GraphQL server do, it returns a
    response, and that response carries the three cross-origin headers. *)
Theorem fetch_always_responds_with_cors :
  forall (new_OpenAI : string -> outcome Service.OpenAI)
         (createYoga : Worker.YogaServerOptions -> outcome Worker.YogaServer)
         (request : Http.Request.t) (env : Types.Env.t) (ctx : unit),
    exists response,
      result_of (Worker.fetch new_OpenAI createYoga request env ctx)
      = Returned response
      /\ carries_cors response.
Proof.
  intros new_OpenAI createYoga request env ctx.
  destruct (fetch_cases new_OpenAI createYoga request env ctx)
    as (response & Hrun & [Hr | [[e Hr] | [served Hr]]]);
    exists response; (split; [exact Hrun | ]); subst response.
  - repeat split; reflexivity.
  - apply catch_all_shape.
  - apply with_cors_carries_cors.
Qed.

(** X11: when the adapter is built and the GraphQL server answers, the
    handler returns the status and the body of that answer; the three
    cross-origin headers read as the handler sets them, also where the
    answer had its own values for them, and every other header reads as in
    the answer. *)
Theorem served_response_keeps_answer :
  forall (new_OpenAI : string -> outcome Service.OpenAI)
         (createYoga : Worker.YogaServerOptions -> outcome Worker.YogaServer)
         (request : Http.Request.t) (env : Types.Env.t) (ctx : unit)
         (openai : Service.OpenAIService) (yoga : Worker.YogaServer)
         (answer : Http.Response.t),
    Http.Request.method request <> "OPTIONS" ->
    result_of (Service.createOpenAIService new_OpenAI env) = Returned openai ->
    createYoga (Worker.yoga_options env openai) = Returned yoga ->
    result_of (Worker.handle yoga request {| Resolvers.openai := openai |})
    = Returned answer ->
    exists response,
      result_of (Worker.fetch new_OpenAI createYoga request env ctx)
      = Returned response
      /\ Http.Response.status response = Http.Response.status answer
      /\ Http.Response.body response = Http.Response.body answer
      /\ carries_cors response
      /\ forall name,
           Edge.not_cors_name name ->
           Http.Headers_get name (Http.Response.headers response)
           = Http.Headers_get name (Http.Response.headers answer).
Proof.
  intros new_OpenAI createYoga request env ctx openai yoga answer
         Hmethod Hservice Hyoga Hhandle.
  rewrite (fetch_served _ _ _ _ ctx _ _ _ Hmethod Hservice Hyoga Hhandle).
  eexists. split; [reflexivity | ].
  split; [reflexivity | ].
  split; [reflexivity | ].
  split; [apply with_cors_carries_cors | ].
  intros name Hname. apply with_cors_keeps_other, Hname.
Qed.

Lemma served_response_keeps_answer_witness :
  exists response,
    result_of (Worker.fetch Scenario.new_OpenAI
                 (Edge.yoga_answering Edge.tagged)
                 (Scenario.request "POST") Edge.configured tt)
    = Returned response
    /\ Http.Response.status response = 200
    /\ Http.Response.body response = Some "ok"
    /\ Http.Headers_get "Access-Control-Allow-Origin"
         (Http.Response.headers response) = Some "*"
    /\ Http.Headers_get "X-Request-Id" (Http.Response.headers response)
       = Some "42".
Proof.
  assert (Hmethod : Http.Request.method (Scenario.request "POST")
                    <> "OPTIONS") by (cbn; discriminate).
  destruct (served_response_keeps_answer Scenario.new_OpenAI
              (Edge.yoga_answering Edge.tagged) (Scenario.request "POST")
              Edge.configured tt
              {| Service.client :=
                   Service.client (Scenario.answering Scenario.hi_there) |}
              {| Worker.handle := fun _ _ => ret Edge.tagged |}
              Edge.tagged Hmethod eq_refl eq_refl eq_refl)
    as (response & Hrun & Hstatus & Hbody & (Horigin & _) & Hother).
  exists response.
  split; [exact Hrun | ].
  split; [exact Hstatus | ].
  split; [exact Hbody | ].
  split; [exact Horigin | ].
  rewrite Hother; [reflexivity | ].
  repeat split; distinct_names.
Defined.

(** X12: when anything thrown inside the try block of the handler comes
    from the client constructor, from the creation of the GraphQL server or
    from its handling of the request, the handler answers with status 500,
    the content type application/json, the cross-origin headers and the
    JSON text of the object with error, "Internal Server Error", and
    message, the message of what was thrown when it is an error and
    "Unknown error" otherwise. *)
Theorem thrown_in_try_is_500 :
  forall (new_OpenAI : string -> outcome Service.OpenAI)
         (createYoga : Worker.YogaServerOptions -> outcome Worker.YogaServer)
         (request : Http.Request.t) (env : Types.Env.t) (ctx : unit)
         (e : Js.thrown),
    Http.Request.method request <> "OPTIONS" ->
    (result_of (Service.createOpenAIService new_OpenAI env) = Thrown e
     \/ exists openai,
          result_of (Service.createOpenAIService new_OpenAI env)
          = Returned openai
          /\ (createYoga (Worker.yoga_options env openai) = Thrown e
              \/ exists yoga,
                   createYoga (Worker.yoga_options env openai)
                   = Returned yoga
                   /\ result_of (Worker.handle yoga request
                                   {| Resolvers.openai := openai |})
                      = Thrown e)) ->
    exists response,
      result_of (Worker.fetch new_OpenAI createYoga request env ctx)
      = Returned response
      /\ Http.Response.status response = 500
      /\ Http.Response.body response
         = Some (Json.stringify
                   [ ("error", "Internal Server Error");
                     ("message",
                      match e with
                      | Js.Error message => message
                      | Js.NonError _ => "Unknown error"
                      end) ])
      /\ Http.Headers_get "Content-Type" (Http.Response.headers response)
         = Some "application/json"
      /\ carries_cors response.
Proof.
  intros new_OpenAI createYoga request env ctx e Hmethod Hthrown.
  exists (Edge.catch_all e).
  split; [ | apply catch_all_shape].
  destruct Hthrown as [Hservice | (openai & Hservice & Hserver)].
  - unfold Edge.catch_all. apply fetch_construction_failed; assumption.
  - apply (fetch_server_failed _ _ _ _ ctx openai e Hmethod Hservice Hserver).
Qed.

Lemma thrown_in_try_is_500_witness :
  exists response,
    result_of (Worker.fetch Scenario.new_OpenAI
                 (Edge.yoga_rejecting (Js.NonError "stream closed"))
                 (Scenario.request "POST") Edge.configured tt)
    = Returned response
    /\ Http.Response.status response = 500
    /\ Http.Response.body response
       = Some (Json.stringify [ ("error", "Internal Server Error");
                                ("message", "Unknown error") ]).
Proof.
  assert (Hmethod : Http.Request.method (Scenario.request "POST")
                    <> "OPTIONS") by (cbn; discriminate).
  destruct (thrown_in_try_is_500 Scenario.new_OpenAI
              (Edge.yoga_rejecting (Js.NonError "stream closed"))
              (Scenario.request "POST") Edge.configured tt
              (Js.NonError "stream closed") Hmethod)
    as (response & Hrun & Hstatus & Hbody & _).
  - right.
    exists {| Service.client :=
                Service.client (Scenario.answering Scenario.hi_there) |}.
    split; [reflexivity | ]. right.
    exists {| Worker.handle :=
                fun _ _ => throw (Js.NonError "stream closed") |}.
    split; reflexivity.
  - exists response.
    split; [exact Hrun | ]. split; [exact Hstatus | exact Hbody].
Defined.

(** X13: on a request other than a preflight, with a credential that is
    absent or empty, the only thing the handler does besides answering is
    to log the configuration error once: the provider client is not
    constructed, the GraphQL server is not created and the request is not
    run. *)
Theorem missing_key_only_logs :
  forall (new_OpenAI : string -> outcome Service.OpenAI)
         (createYoga : Worker.YogaServerOptions -> outcome Worker.YogaServer)
         (request : Http.Request.t) (env : Types.Env.t) (ctx : unit),
    Http.Request.method request <> "OPTIONS" ->
    (Types.Env.OPENAI_API_KEY env = None
     \/ Types.Env.OPENAI_API_KEY env = Some EmptyString) ->
    trace_of (Worker.fetch new_OpenAI createYoga request env ctx)
    = [ConsoleError "Worker Error:"
         (Js.Error "OPENAI_API_KEY is not configured")].
Proof.
  intros new_OpenAI createYoga request env ctx Hmethod Hkey.
  unfold Worker.fetch.
  apply String.eqb_neq in Hmethod. rewrite Hmethod.
  rewrite (construction_without_key new_OpenAI env Hkey).
  reflexivity.
Qed.

Lemma missing_key_only_logs_witness :
  trace_of (Worker.fetch Scenario.new_OpenAI Scenario.createYoga
              (Scenario.request "POST") Scenario.unconfigured tt)
  = [ConsoleError "Worker Error:"
       (Js.Error "OPENAI_API_KEY is not configured")].
Proof.
  apply (missing_key_only_logs Scenario.new_OpenAI Scenario.createYoga
           (Scenario.request "POST") Scenario.unconfigured tt).
  - cbn. discriminate.
  - left. reflexivity.
Defined.

(** X14: on a request other than a preflight, with a non-empty credential,
    a client constructor and a server creation that succeed and a server
    that answers, the handler does, in this order: construct the provider
    client with the credential, create the GraphQL server with the console
    flag computed from the environment, and hand the request to the server
    together with a context that holds the adapter around that very client;
    what follows in its trace is what the server did, and the handler logs
    nothing. *)
Theorem handler_order_of_calls :
  forall (new_OpenAI : string -> outcome Service.OpenAI)
         (createYoga : Worker.YogaServerOptions -> outcome Worker.YogaServer)
         (request : Http.Request.t) (env : Types.Env.t) (ctx : unit)
         (apiKey : string) (c : Service.OpenAI) (yoga : Worker.YogaServer)
         (answer : Http.Response.t),
    let openai := {| Service.client := c |} in
    let served :=
      Worker.handle yoga request {| Resolvers.openai := openai |} in
    Http.Request.method request <> "OPTIONS" ->
    Types.Env.OPENAI_API_KEY env = Some apiKey ->
    apiKey <> EmptyString ->
    new_OpenAI apiKey = Returned c ->
    createYoga (Worker.yoga_options env openai) = Returned yoga ->
    result_of served = Returned answer ->
    trace_of (Worker.fetch new_OpenAI createYoga request env ctx)
    = [ NewOpenAI apiKey;
        CreateYoga (Worker.graphiql_enabled env);
        YogaFetch (Http.Request.method request) ]
      ++ trace_of served.
Proof.
  intros new_OpenAI createYoga request env ctx apiKey c yoga answer
         openai served Hmethod Hkey Hnonempty Hnew Hyoga Hserved.
  unfold Worker.fetch.
  apply String.eqb_neq in Hmethod. rewrite Hmethod.
  unfold Service.createOpenAIService, Service.new_OpenAIService.
  rewrite Hkey.
  destruct apiKey as [ | a rest]; [contradiction | ].
  cbn [Js.truthy_string].
  unfold Worker.call_createYoga, Worker.await_yoga_fetch.
  unfold bind at 2. unfold bind at 2. unfold emit, lift. rewrite Hnew.
  unfold bind at 1. unfold ret at 1.
  unfold bind at 1. unfold bind at 1. fold openai. rewrite Hyoga.
  unfold bind at 1. unfold bind at 1. fold served.
  destruct served as [o t].
  unfold result_of in Hserved. cbn in Hserved. subst o.
  unfold ret, try_catch, trace_of. cbn [snd app].
  rewrite !app_nil_r. reflexivity.
Qed.

Lemma handler_order_of_calls_witness :
  trace_of (Worker.fetch Scenario.new_OpenAI (Edge.yoga_answering Edge.tagged)
              (Scenario.request "POST") Edge.configured tt)
  = [ NewOpenAI "sk-test"; CreateYoga true; YogaFetch "POST" ].
Proof.
  assert (Hmethod : Http.Request.method (Scenario.request "POST")
                    <> "OPTIONS") by (cbn; discriminate).
  assert (Hkey : "sk-test" <> EmptyString) by discriminate.
  apply (handler_order_of_calls Scenario.new_OpenAI
           (Edge.yoga_answering Edge.tagged) (Scenario.request "POST")
           Edge.configured tt "sk-test"
           (Service.client (Scenario.answering Scenario.hi_there))
           {| Worker.handle := fun _ _ => ret Edge.tagged |}
           Edge.tagged Hmethod eq_refl Hkey eq_refl eq_refl eq_refl).
Defined.
